(** * Order management, box-arbitrage scanner and trade ledger

    A shallow embedding of [order_manager.py] (paper and live order
    managers), of the sizing step of [fast_btc_15m_arb.py] and of
    [trade_logger.py].

    Modelling conventions.
    - Python floats are modelled as exact rationals [Q]; the float
      literals of the source (0.50, 0.52, 0.55, 1e-9, 0.5, 3600) are
      written as the same decimals.
    - A Python dict keyed by order id is a list of orders in insertion
      order whose ids are pairwise distinct; [dict_set] is
      [d[o.id] = o] (replace in place, or append).
    - Every effect of the outside world (wall clock, HTTP responses,
      venue client answers, [random.random()]) is an explicit input.
    - An [async] callback is modelled by the list of its invocations:
      [_notify_fill] appends [(side, price, qty)] when a callback has
      been registered with [set_fill_callback]. *)

From Stdlib Require Import QArith Qminmax Qabs String List Bool ZArith Lia.
From Stdlib Require Import Sorted Permutation Lqa.
Import ListNotations.
Open Scope string_scope.
Open Scope list_scope.
Open Scope Q_scope.
Set Warnings "-register-all".


(** Strict order on [Q] as a boolean, as Python's [<] on floats. *)
Definition Qltb (x y : Q) : bool := negb (Qle_bool y x).

(** ** Stable sorting, as Python's [list.sort(key=...)] *)

Section StableSort.
Context {A : Type}.
  (** [before x y] holds when [x] must be placed before [y]. *)
Variable before : A -> A -> bool.

  (** Insert [x] after every element it does not strictly precede:
      elements with equal keys keep their original order. *)
Fixpoint insert_stable (x : A) (l : list A) : list A :=
    match l with
    | [] => [x]
    | y :: ys => if before x y then x :: y :: ys else y :: insert_stable x ys
    end.

Definition sort_stable (l : list A) : list A :=
    fold_left (fun acc x => insert_stable x acc) l [].
End StableSort.

(** [levels.sort(key=lambda x: x[0])] *)
Definition sort_asc (l : list (Q * Q)) : list (Q * Q) :=
  sort_stable (fun x y => Qltb (fst x) (fst y)) l.

(** [levels.sort(key=lambda x: x[0], reverse=True)]; Python keeps the
    sort stable under [reverse=True]. *)
Definition sort_desc (l : list (Q * Q)) : list (Q * Q) :=
  sort_stable (fun x y => Qltb (fst y) (fst x)) l.

Module OrderManager.

(** ** Entities *)

Inductive OrderSide := YES | NO.

(** [side.value] *)
Definition side_value (s : OrderSide) : string :=
  match s with YES => "YES" | NO => "NO" end.

Inductive OrderStatus :=
| PENDING | OPEN | FILLED | PARTIALLY_FILLED | CANCELLED | REJECTED.

Definition status_eqb (a b : OrderStatus) : bool :=
  match a, b with
  | PENDING, PENDING | OPEN, OPEN | FILLED, FILLED
  | PARTIALLY_FILLED, PARTIALLY_FILLED | CANCELLED, CANCELLED
  | REJECTED, REJECTED => true
  | _, _ => false
  end.

(** The dataclass [Order]; [created_at] (a wall-clock timestamp read by
    no operation of the managers) is left out. *)
Record Order := mkOrder {
  id : string;
  side : OrderSide;
  price : Q;
  size : Q;
  status : OrderStatus;
  filled_qty : Q;
  filled_avg_price : Q;
  token_id : string
}.

Definition remaining (o : Order) : Q := size o - filled_qty o.

Definition is_active (o : Order) : bool :=
  match status o with OPEN | PARTIALLY_FILLED => true | _ => false end.

Definition with_status (st : OrderStatus) (o : Order) : Order :=
  mkOrder (id o) (side o) (price o) (size o) st (filled_qty o)
    (filled_avg_price o) (token_id o).

(** [order.status = FILLED; order.filled_qty = q; order.filled_avg_price = p] *)
Definition with_fill (q p : Q) (o : Order) : Order :=
  mkOrder (id o) (side o) (price o) (size o) FILLED q p (token_id o).

Record OrderBook := mkBook { bids : list (Q * Q); asks : list (Q * Q) }.

Definition best_bid (b : OrderBook) : option Q :=
  match bids b with (p, _) :: _ => Some p | [] => None end.

Definition best_ask (b : OrderBook) : option Q :=
  match asks b with (p, _) :: _ => Some p | [] => None end.

(** Truth value of an [Optional[float]] in a Python [if]: [None] and
    [0.0] are false. *)
Definition py_truthy (o : option Q) : bool :=
  match o with Some q => negb (Qeq_bool q 0) | None => false end.

(** ** The order table [self.orders : Dict[str, Order]] *)

Fixpoint dict_get (k : string) (t : list Order) : option Order :=
  match t with
  | [] => None
  | o :: t' => if String.eqb (id o) k then Some o else dict_get k t'
  end.

(** [self.orders[o.id] = o] *)
Fixpoint dict_set (o : Order) (t : list Order) : list Order :=
  match t with
  | [] => [o]
  | o' :: t' => if String.eqb (id o') (id o) then o :: t' else o' :: dict_set o t'
  end.

(** In-place mutation of the order stored under key [k]. *)
Fixpoint dict_update (k : string) (f : Order -> Order) (t : list Order)
  : list Order :=
  match t with
  | [] => []
  | o :: t' => if String.eqb (id o) k then f o :: t' else o :: dict_update k f t'
  end.

(** [OrderBook.spread]: [if self.best_bid and self.best_ask] (a price
    of 0 is false). *)
Definition spread (b : OrderBook) : option Q :=
  if py_truthy (best_bid b) && py_truthy (best_ask b) then
    match best_bid b, best_ask b with
    | Some x, Some y => Some (y - x)
    | _, _ => None
    end
  else None.

(** [OrderBook.mid_price] *)
Definition mid_price (b : OrderBook) : option Q :=
  if py_truthy (best_bid b) && py_truthy (best_ask b) then
    match best_bid b, best_ask b with
    | Some x, Some y => Some ((x + y) / 2)
    | _, _ => None
    end
  else None.

Definition side_eqb (a b : OrderSide) : bool :=
  match a, b with YES, YES | NO, NO => true | _, _ => false end.

(** [BaseOrderManager.get_open_orders] over [self.orders.values()]; an
    [OrderSide] member is always true in [if side]. *)
Definition get_open_orders (t : list Order) (s : option OrderSide) : list Order :=
  let os := filter is_active t in
  match s with
  | Some sd => filter (fun o => side_eqb (side o) sd) os
  | None => os
  end.

(** ** Paper order manager ([PaperOrderManager]) *)
Module Paper.

(** One raw level of the [/book] payload: [float(bid.get("price", 0))]
    and [float(bid.get("size", 0))] either succeed ([RawLevel_ok]) or
    raise ([RawLevel_bad]: an unparseable string, a non-dict entry). *)
Inductive RawLevel := RawLevel_ok (p s : Q) | RawLevel_bad.

(** The decoded JSON body: a dict with its ["bids"] and ["asks"] lists
    (an absent key reads as the empty list), or a body on which
    [data.get] or the iteration raises. *)
Inductive Payload :=
| Payload_book (raw_bids raw_asks : list RawLevel)
| Payload_bad.

(** Outcome of [session.get(url, params=..., timeout=5)]. *)
Inductive FetchResult :=
| Fetch_response (http_status : Z) (body : Payload)
| Fetch_timeout
| Fetch_error.

(** The parsing loop with its filter [if price > 0 and size > 0];
    [None] when a conversion raises. *)
Fixpoint parse_levels (raw : list RawLevel) : option (list (Q * Q)) :=
  match raw with
  | [] => Some []
  | RawLevel_bad :: _ => None
  | RawLevel_ok p s :: rest =>
      match parse_levels rest with
      | None => None
      | Some out => Some (if Qltb 0 p && Qltb 0 s then (p, s) :: out else out)
      end
  end.

(** [OrderBook(bids=[(0.50, 100)], asks=[(0.52, 100)])] *)
Definition default_book : OrderBook := mkBook [(0.50, 100)] [(0.52, 100)].

(** [_fetch_live_order_book]: every failure (non-200 status, raising
    conversion, timeout, other exception) and a book with no valid level
    end at the default book. *)
Definition _fetch_live_order_book (r : FetchResult) : OrderBook :=
  match r with
  | Fetch_response code (Payload_book rb ra) =>
      if Z.eqb code 200 then
        match parse_levels rb, parse_levels ra with
        | Some b, Some a =>
            let b' := sort_desc b in
            let a' := sort_asc a in
            match b', a' with
            | [], [] => default_book
            | _, _ => mkBook b' a'
            end
        | _, _ => default_book
        end
      else default_book
  | _ => default_book
  end.

Record PaperOrderManager := mkPaper {
  yes_token_id : string;
  no_token_id : string;
  orders : list Order;
  (** whether [set_fill_callback] registered a callback *)
  fill_callback_set : bool;
  (** the invocations of the callback, oldest first *)
  fill_calls : list (string * Q * Q);
  fill_probability : Q;
  realistic_mode : bool;
  (** [self._cached_books] *)
  cached_yes : option OrderBook;
  cached_no : option OrderBook;
  cache_time : Q;
  cache_ttl : Q;
  (** order ids handed to [_delayed_fill] by [asyncio.create_task] *)
  delayed_fills : list string
}.

(** [PaperOrderManager(yes_token_id, no_token_id, fill_probability,
    realistic_mode)] *)
Definition init (yes no : string) (prob : Q) (realistic : bool)
  : PaperOrderManager :=
  mkPaper yes no [] false [] prob realistic None None 0 0.5 [].

Definition set_orders (m : PaperOrderManager) (t : list Order) :=
  mkPaper (yes_token_id m) (no_token_id m) t (fill_callback_set m)
    (fill_calls m) (fill_probability m) (realistic_mode m) (cached_yes m)
    (cached_no m) (cache_time m) (cache_ttl m) (delayed_fills m).

Definition set_fill_callback (m : PaperOrderManager) :=
  mkPaper (yes_token_id m) (no_token_id m) (orders m) true
    (fill_calls m) (fill_probability m) (realistic_mode m) (cached_yes m)
    (cached_no m) (cache_time m) (cache_ttl m) (delayed_fills m).

(** [_notify_fill]: awaits the callback only when one is registered. *)
Definition _notify_fill (m : PaperOrderManager) (s : string) (p q : Q) :=
  mkPaper (yes_token_id m) (no_token_id m) (orders m) (fill_callback_set m)
    (if fill_callback_set m then fill_calls m ++ [(s, p, q)] else fill_calls m)
    (fill_probability m) (realistic_mode m) (cached_yes m)
    (cached_no m) (cache_time m) (cache_ttl m) (delayed_fills m).

Definition set_cache (m : PaperOrderManager) (yb nb : OrderBook) (t : Q) :=
  mkPaper (yes_token_id m) (no_token_id m) (orders m) (fill_callback_set m)
    (fill_calls m) (fill_probability m) (realistic_mode m) (Some yb)
    (Some nb) t (cache_ttl m) (delayed_fills m).

Definition schedule_delayed_fill (m : PaperOrderManager) (oid : string) :=
  mkPaper (yes_token_id m) (no_token_id m) (orders m) (fill_callback_set m)
    (fill_calls m) (fill_probability m) (realistic_mode m) (cached_yes m)
    (cached_no m) (cache_time m) (cache_ttl m) (delayed_fills m ++ [oid]).

Definition get_token_id (m : PaperOrderManager) (s : OrderSide) : string :=
  match s with YES => yes_token_id m | NO => no_token_id m end.

(** What the outside world provides to one [get_order_book] call: the
    value of [time.time()] and the outcomes of the two fetches made if
    the cache is refreshed (YES book first, then NO book). *)
Record Tick := mkTick {
  clock : Q;
  resp_yes : FetchResult;
  resp_no : FetchResult
}.

(** [self._cached_books.get(side, default)] *)
Definition cached_book (m : PaperOrderManager) (s : OrderSide) : OrderBook :=
  match (match s with YES => cached_yes m | NO => cached_no m end) with
  | Some b => b
  | None => default_book
  end.

(** [get_order_book]: both books are refreshed together once the cache is
    older than [_cache_ttl]. *)
Definition get_order_book (m : PaperOrderManager) (s : OrderSide) (w : Tick)
  : OrderBook * PaperOrderManager :=
  if Qltb (cache_ttl m) (clock w - cache_time m) then
    let yes_book := _fetch_live_order_book (resp_yes w) in
    let no_book := _fetch_live_order_book (resp_no w) in
    let m' := set_cache m yes_book no_book (clock w) in
    (cached_book m' s, m')
  else (cached_book m s, m).

(** [place_limit_buy]; [oid] is the generated ["paper_<hex>"] id and
    [rnd] the value of [random.random()] (read in random mode only).
    [if book.best_ask and price >= book.best_ask] is the test
    [a <> 0 /\ a <= price] on [best_ask = Some a]. *)
Definition place_limit_buy (m : PaperOrderManager) (s : OrderSide)
    (p sz : Q) (oid : string) (w : Tick) (rnd : Q)
  : Order * PaperOrderManager :=
  let order := mkOrder oid s p sz OPEN 0 0 (get_token_id m s) in
  let m1 := set_orders m (dict_set order (orders m)) in
  let (book, m2) := get_order_book m1 s w in
  let resting :=
    if realistic_mode m2 then (order, m2)
    else if Qltb rnd (fill_probability m2)
         then (order, schedule_delayed_fill m2 (id order))
         else (order, m2) in
  match best_ask book with
  | Some a =>
      if negb (Qeq_bool a 0) && Qle_bool a p then
        let m3 := set_orders m2 (dict_update (id order) (with_fill sz a) (orders m2)) in
        (with_fill sz a order, _notify_fill m3 (side_value s) a sz)
      else resting
  | None => resting
  end.

(** [cancel_order] *)
Definition cancel_order (m : PaperOrderManager) (oid : string)
  : bool * PaperOrderManager :=
  match dict_get oid (orders m) with
  | Some o =>
      if is_active o
      then (true, set_orders m (dict_update oid (with_status CANCELLED) (orders m)))
      else (false, m)
  | None => (false, m)
  end.

(** The loop of [cancel_all_orders] over [self.orders.values()]. *)
Fixpoint cancel_all_loop (t : list Order) : nat * list Order :=
  match t with
  | [] => (0%nat, [])
  | o :: t' =>
      let (n, t'') := cancel_all_loop t' in
      if is_active o then (S n, with_status CANCELLED o :: t'') else (n, o :: t'')
  end.

Definition cancel_all_orders (m : PaperOrderManager) : nat * PaperOrderManager :=
  let (n, t) := cancel_all_loop (orders m) in (n, set_orders m t).

(** The loop of [check_pending_fills] over [list(self.orders.values())]:
    the [i]-th order of the snapshot reads the world [ws i]. The snapshot
    holds the dict's own objects, so an order's status is read from the
    table at the time it is reached. *)
Fixpoint check_loop (ws : nat -> Tick) (i : nat) (snapshot : list Order)
    (m : PaperOrderManager) : nat * PaperOrderManager :=
  match snapshot with
  | [] => (0%nat, m)
  | o :: rest =>
      let cur := match dict_get (id o) (orders m) with Some c => c | None => o end in
      if negb (status_eqb (status cur) OPEN) then check_loop ws (S i) rest m
      else
        let (book, m1) := get_order_book m (side cur) (ws i) in
        match best_ask book with
        | Some a =>
            if negb (Qeq_bool a 0) && Qle_bool a (price cur) then
              let m2 := set_orders m1
                          (dict_update (id cur) (with_fill (size cur) a) (orders m1)) in
              let m3 := _notify_fill m2 (side_value (side cur)) a (size cur) in
              let (n, m4) := check_loop ws (S i) rest m3 in (S n, m4)
            else check_loop ws (S i) rest m1
        | None => check_loop ws (S i) rest m1
        end
  end.

Definition check_pending_fills (ws : nat -> Tick) (m : PaperOrderManager)
  : nat * PaperOrderManager :=
  check_loop ws 0 (orders m) m.

(** [market_buy]: [fill_price = book.best_ask or 0.55]. *)
Definition market_buy (m : PaperOrderManager) (s : OrderSide) (sz : Q)
    (oid : string) (w : Tick) : Order * PaperOrderManager :=
  let (book, m1) := get_order_book m s w in
  let fill_price :=
    match best_ask book with
    | Some a => if Qeq_bool a 0 then 0.55 else a
    | None => 0.55
    end in
  let order := mkOrder oid s fill_price sz FILLED sz fill_price (get_token_id m1 s) in
  let m2 := set_orders m1 (dict_set order (orders m1)) in
  (order, _notify_fill m2 (side_value s) fill_price sz).

(** [refresh_order_status]: [self.orders.get(order_id)]. *)
Definition refresh_order_status (m : PaperOrderManager) (oid : string)
  : option Order :=
  dict_get oid (orders m).

(** [simulate_fill]; [fp] is the [fill_price] argument. Without one, the
    book of the order's side is read (refreshing the cache when stale)
    and the order fills at its own limit price. *)
Definition simulate_fill (m : PaperOrderManager) (oid : string) (fp : option Q)
    (w : Tick) : bool * PaperOrderManager :=
  match dict_get oid (orders m) with
  | None => (false, m)
  | Some o =>
      if negb (is_active o) then (false, m)
      else
        let (fill_price, m1) :=
          match fp with
          | Some p => (p, m)
          | None => (price o, snd (get_order_book m (side o) w))
          end in
        let m2 := set_orders m1 (dict_update oid (with_fill (size o) fill_price) (orders m1)) in
        (true, _notify_fill m2 (side_value (side o)) fill_price (size o))
  end.

(** [_delayed_fill]: [simulate_fill(order_id)] once the delay is over;
    [m] is the manager's state at that moment. *)
Definition _delayed_fill (m : PaperOrderManager) (oid : string) (w : Tick)
  : PaperOrderManager :=
  snd (simulate_fill m oid None w).

End Paper.

(** ** Live order manager ([LiveOrderManager]) *)
Module Live.

(** Result of a call that may raise: [Raises] carries the exception
    class. *)
Inductive Outcome (A : Type) := Returns (a : A) | Raises (exn : string).
Arguments Returns {A} a.
Arguments Raises {A} exn.

(** One level of the client's book summary as [to_levels] sees it:
    converted to [(float(price), float(size))] (from an object with
    [price]/[size] attributes, or from a dict where a missing key reads
    as 0), or skipped because neither conversion succeeded. *)
Inductive RawLevel := Level_ok (p s : Q) | Level_skip.

(** The [bids]/[asks] field of the summary: a list (an absent field,
    [None] or [[]] all read as the empty list), or a truthy value that
    is not iterable, on which the [for] loop raises. *)
Inductive RawLevels := Levels_list (l : list RawLevel) | Levels_not_iterable.

(** The value returned by [client.get_order_book]. *)
Inductive RawBook := Raw_none | Raw_summary (rb ra : RawLevels).

(** Outcome of [asyncio.to_thread(self.client.get_order_book, token_id)]. *)
Inductive BookFetch := BookFetch_ok (raw : RawBook) | BookFetch_raise.

(** [to_levels]; [None] when the iteration raises. *)
Definition to_levels (levels : RawLevels) : option (list (Q * Q)) :=
  match levels with
  | Levels_not_iterable => None
  | Levels_list l =>
      Some (fold_right (fun lvl out =>
              match lvl with Level_ok p s => (p, s) :: out | Level_skip => out end)
            [] l)
  end.

Definition empty_book : OrderBook := mkBook [] [].

(** [_normalize_order_book_summary]; [None] when it raises. *)
Definition _normalize_order_book_summary (raw : RawBook) : option OrderBook :=
  match raw with
  | Raw_none => Some empty_book
  | Raw_summary rb ra =>
      match to_levels rb, to_levels ra with
      | Some b, Some a => Some (mkBook (sort_desc b) (sort_asc a))
      | _, _ => None
      end
  end.

(** [get_order_book]: any exception gives [OrderBook(bids=[], asks=[])]. *)
Definition get_order_book (r : BookFetch) : OrderBook :=
  match r with
  | BookFetch_ok raw =>
      match _normalize_order_book_summary raw with
      | Some b => b
      | None => empty_book
      end
  | BookFetch_raise => empty_book
  end.

Record LiveOrderManager := mkLive {
  yes_token_id : string;
  no_token_id : string;
  orders : list Order;
  fill_callback_set : bool;
  fill_calls : list (string * Q * Q)
}.

Definition set_orders (m : LiveOrderManager) (t : list Order) :=
  mkLive (yes_token_id m) (no_token_id m) t (fill_callback_set m) (fill_calls m).

Definition set_fill_callback (m : LiveOrderManager) :=
  mkLive (yes_token_id m) (no_token_id m) (orders m) true (fill_calls m).

Definition _notify_fill (m : LiveOrderManager) (s : string) (p q : Q) :=
  mkLive (yes_token_id m) (no_token_id m) (orders m) (fill_callback_set m)
    (if fill_callback_set m then fill_calls m ++ [(s, p, q)] else fill_calls m).

Definition get_token_id (m : LiveOrderManager) (s : OrderSide) : string :=
  match s with YES => yes_token_id m | NO => no_token_id m end.

(** The response of [client.create_and_post_order], restricted to
    string-valued id fields. *)
Inductive IdResponse :=
| IdResp_none
| IdResp_dict (d : list (string * string))
| IdResp_obj (attrs : list (string * string)).

Fixpoint str_lookup (k : string) (d : list (string * string)) : option string :=
  match d with
  | [] => None
  | (k', v) :: d' => if String.eqb k' k then Some v else str_lookup k d'
  end.

(** [x or y] on [Optional[str]] *)
Definition str_or (x : option string) (y : string) : string :=
  match x with Some v => if String.eqb v "" then y else v | None => y end.

(** [_extract_order_id] *)
Definition _extract_order_id (r : IdResponse) : string :=
  match r with
  | IdResp_none => ""
  | IdResp_dict d =>
      str_or (str_lookup "orderID" d) (str_or (str_lookup "orderId" d)
        (str_or (str_lookup "order_id" d) (str_or (str_lookup "id" d) "")))
  | IdResp_obj a =>
      str_or (str_lookup "orderID" a) (str_or (str_lookup "orderId" a)
        (str_or (str_lookup "order_id" a) (str_or (str_lookup "id" a) "")))
  end.

(** Outcome of [client.create_and_post_order]. *)
Inductive PlaceResult := Place_ok (resp : IdResponse) | Place_raise.

(** [place_limit_buy]; [fresh] is [str(uuid.uuid4())]. *)
Definition place_limit_buy (m : LiveOrderManager) (s : OrderSide) (p sz : Q)
    (r : PlaceResult) (fresh : string) : Outcome (Order * LiveOrderManager) :=
  match r with
  | Place_raise => Raises "ClientError"
  | Place_ok resp =>
      let oid := str_or (Some (_extract_order_id resp)) fresh in
      let order := mkOrder oid s p sz OPEN 0 0 (get_token_id m s) in
      Returns (order, set_orders m (dict_set order (orders m)))
  end.

(** [market_buy]: [if not book.best_ask: raise ValueError(...)]. *)
Definition market_buy (m : LiveOrderManager) (s : OrderSide) (sz : Q)
    (bf : BookFetch) (r : PlaceResult) (fresh : string)
  : Outcome (Order * LiveOrderManager) :=
  let book := get_order_book bf in
  match best_ask book with
  | Some a =>
      if Qeq_bool a 0 then Raises "ValueError"
      else place_limit_buy m s a sz r fresh
  | None => Raises "ValueError"
  end.

(** [cancel_order]; [venue_ok] says whether [client.cancel] returned
    without raising. *)
Definition cancel_order (m : LiveOrderManager) (oid : string) (venue_ok : bool)
  : bool * LiveOrderManager :=
  if venue_ok
  then (true, set_orders m (dict_update oid (with_status CANCELLED) (orders m)))
  else (false, m).

(** The loop of [cancel_all_orders] over [list(self.orders.values())];
    [venue_ok oid] is the outcome of [client.cancel(oid)] in this sweep. *)
Fixpoint cancel_all_loop (venue_ok : string -> bool) (snapshot : list Order)
    (m : LiveOrderManager) : nat * LiveOrderManager :=
  match snapshot with
  | [] => (0%nat, m)
  | o :: rest =>
      let cur := match dict_get (id o) (orders m) with Some c => c | None => o end in
      if is_active cur then
        let (ok, m1) := cancel_order m (id cur) (venue_ok (id cur)) in
        let (n, m2) := cancel_all_loop venue_ok rest m1 in
        ((if ok then S n else n), m2)
      else cancel_all_loop venue_ok rest m
  end.

Definition cancel_all_orders (venue_ok : string -> bool) (m : LiveOrderManager)
  : nat * LiveOrderManager :=
  cancel_all_loop venue_ok (orders m) m.

(** A Python value read from the dict returned by [client.get_order]. *)
Inductive PyVal := PyNone | PyStr (s : string) | PyNum (q : Q).

Definition py_val_truthy (v : PyVal) : bool :=
  match v with
  | PyNone => false
  | PyStr s => negb (String.eqb s "")
  | PyNum q => negb (Qeq_bool q 0)
  end.

(** [d.get(k)] *)
Fixpoint py_get (k : string) (d : list (string * PyVal)) : PyVal :=
  match d with
  | [] => PyNone
  | (k', v) :: d' => if String.eqb k' k then v else py_get k d'
  end.

(** [v1 or v2 or ... or last] *)
Fixpoint py_or (vs : list PyVal) (last : PyVal) : PyVal :=
  match vs with
  | [] => last
  | v :: vs' => if py_val_truthy v then v else py_or vs' last
  end.

(** Outcome of [client.get_order(order_id)]. *)
Inductive GetOrderResult :=
| GetOrder_raise
| GetOrder_other
| GetOrder_dict (d : list (string * PyVal)).

Definition with_fill_fields (q p : Q) (o : Order) : Order :=
  mkOrder (id o) (side o) (price o) (size o) (status o) q p (token_id o).

Section Refresh.
  (** [float(s)] on a string: [None] when it raises [ValueError]. *)
Variable py_float_str : string -> option Q.

  (** [try: float(v) except Exception: 0.0] *)
Definition float_or_zero (v : PyVal) : Q :=
    match v with
    | PyNum q => q
    | PyStr s => match py_float_str s with Some q => q | None => 0 end
    | PyNone => 0
    end.

  (** [status_map.get(response.get("status", ""), order.status)] *)
Definition mapped_status (v : PyVal) (old : OrderStatus) : OrderStatus :=
    match v with
    | PyStr s =>
        if String.eqb s "open" then OPEN
        else if String.eqb s "filled" then FILLED
        else if String.eqb s "cancelled" then CANCELLED
        else old
    | _ => old
    end.

  (** [refresh_order_status] *)
Definition refresh_order_status (m : LiveOrderManager) (oid : string)
      (r : GetOrderResult) : option Order * LiveOrderManager :=
    match r with
    | GetOrder_raise => (dict_get oid (orders m), m)
    | _ =>
        match dict_get oid (orders m) with
        | None => (None, m)
        | Some o =>
            let st_val := match r with GetOrder_dict d => py_get "status" d | _ => PyStr "" end in
            let o1 := with_status (mapped_status st_val (status o)) o in
            let o2 :=
              match r with
              | GetOrder_dict d =>
                  let filled_size :=
                    py_or [py_get "filledSize" d; py_get "filled_size" d;
                           py_get "matchedSize" d; py_get "matched_size" d] (PyNum 0) in
                  let avg_fill_price :=
                    py_or [py_get "avgFillPrice" d; py_get "avg_fill_price" d;
                           py_get "averageFillPrice" d; py_get "average_fill_price" d] (PyNum 0) in
                  with_fill_fields (float_or_zero (py_or [filled_size] (PyNum 0)))
                    (float_or_zero (py_or [avg_fill_price] (PyNum 0))) o1
              | _ => o1
              end in
            let m1 := set_orders m (dict_update oid (fun _ => o2) (orders m)) in
            if status_eqb (status o2) FILLED && Qltb 0 (filled_qty o2)
            then (Some o2, _notify_fill m1 (side_value (side o2))
                             (filled_avg_price o2) (filled_qty o2))
            else (Some o2, m1)
        end
    end.


End Refresh.

End Live.

End OrderManager.

(** ** The sizing step of [run_fast_box_arb] ([fast_btc_15m_arb.py]) *)
Module FastBoxArb.

Record FastArbParams := mkParams {
  min_edge : Q;
  usd_per_attempt : Q;
  min_seconds_to_expiry : Q;
  poll_interval_s : Q;
  order_type : string
}.

(** [FastArbParams()] *)
Definition default_params : FastArbParams := mkParams 0.005 5.0 60.0 0.25 "FOK".

(** The first entry of a summary's [asks]: [float(top.price)] and
    [float(top.size)] succeed, or one of them raises. *)
Inductive TopLevel := Top_ok (p s : Q) | Top_bad.

(** An [OrderBookSummary] as [_best_ask] reads it: its [asks] list (an
    absent attribute or [None] reads as the empty list). *)
Record BookSummary := mkSummary { summary_asks : list TopLevel }.

(** [_best_ask] *)
Definition _best_ask (summary : BookSummary) : option (Q * Q) :=
  match summary_asks summary with
  | [] => None
  | Top_ok p s :: _ => Some (p, s)
  | Top_bad :: _ => None
  end.

(** What one iteration of the inner [while] loop does after fetching the
    books: sleep and [continue], or post both legs at size [q]. *)
Inductive Attempt := Skip | Submit (p_up p_down q : Q).

(** One iteration of the loop, from [books = client.get_order_books(...)]
    up to [client.post_orders]. *)
Definition scan_iteration (params : FastArbParams) (books : list BookSummary)
  : Attempt :=
  match books with
  | [up_book; down_book] =>
      match _best_ask up_book, _best_ask down_book with
      | Some (p_up, s_up), Some (p_down, s_down) =>
          let p_sum := p_up + p_down in
          let edge := 1 - p_sum in
          if Qltb edge (min_edge params) then Skip
          else
            let q := usd_per_attempt params / Qmax 1e-9 p_sum in
            let q := Qmin (Qmin q s_up) s_down in
            if Qle_bool q 0 then Skip else Submit p_up p_down q
      | _, _ => Skip
      end
  | _ => Skip
  end.

End FastBoxArb.

(** ** The ledger ([trade_logger.py]) *)
Module Ledger.

(** JSON documents as [json.dump] writes them and [json.load] reads them
    back (numbers are exact, as Python's float [repr] round-trips). *)
Inductive JSON :=
| JNull
| JBool (b : bool)
| JNum (q : Q)
| JStr (s : string)
| JArr (l : list JSON)
| JObj (kv : list (string * JSON)).

(** The session file on disk: absent, a JSON document, or text that
    [json.load] rejects. *)
Inductive FileState := NoFile | FileJSON (j : JSON) | FileCorrupt.

Fixpoint jget (k : string) (kv : list (string * JSON)) : option JSON :=
  match kv with
  | [] => None
  | (k', v) :: kv' => if String.eqb k' k then Some v else jget k kv'
  end.

(** Truth value of a decoded JSON value in a Python [if]. *)
Definition json_truthy (v : JSON) : bool :=
  match v with
  | JNull => false
  | JBool b => b
  | JNum q => negb (Qeq_bool q 0)
  | JStr s => negb (String.eqb s "")
  | JArr l => match l with [] => false | _ => true end
  | JObj kv => match kv with [] => false | _ => true end
  end.

(** [for x in v] over a decoded JSON value: a string or a dict iterate
    their characters or keys, which no record constructor accepts, so
    only their empty forms give a list without raising. *)
Definition json_iter (v : JSON) : option (list JSON) :=
  match v with
  | JArr l => Some l
  | JStr "" => Some []
  | JObj [] => Some []
  | _ => None
  end.

Fixpoint map_option {A B : Type} (f : A -> option B) (l : list A) : option (list B) :=
  match l with
  | [] => Some []
  | x :: l' =>
      match f x, map_option f l' with
      | Some y, Some ys => Some (y :: ys)
      | _, _ => None
      end
  end.

(** Keyword construction [Cls( **d)] accepts exactly the declared fields:
    an unknown key raises [TypeError]. *)
Definition keys_within (allowed : list string) (kv : list (string * JSON)) : bool :=
  forallb (fun p => existsb (String.eqb (fst p)) allowed) kv.

(** A required field of type [str] / [float]; a value of another JSON type
    cannot be held by the typed record and counts as a failed load. *)
Definition req_str (k : string) (kv : list (string * JSON)) : option string :=
  match jget k kv with Some (JStr s) => Some s | _ => None end.
Definition req_num (k : string) (kv : list (string * JSON)) : option Q :=
  match jget k kv with Some (JNum q) => Some q | _ => None end.
(** A field with a default: an absent key takes the default. *)
Definition opt_num (k : string) (dflt : Q) (kv : list (string * JSON)) : option Q :=
  match jget k kv with None => Some dflt | Some (JNum q) => Some q | _ => None end.
Definition opt_str (k : string) (dflt : string) (kv : list (string * JSON)) : option string :=
  match jget k kv with None => Some dflt | Some (JStr s) => Some s | _ => None end.
(** An [Optional[...]] field defaulting to [None]. *)
Definition optional_num (k : string) (kv : list (string * JSON)) : option (option Q) :=
  match jget k kv with
  | None | Some JNull => Some None
  | Some (JNum q) => Some (Some q)
  | _ => None
  end.
Definition optional_str (k : string) (kv : list (string * JSON)) : option (option string) :=
  match jget k kv with
  | None | Some JNull => Some None
  | Some (JStr s) => Some (Some s)
  | _ => None
  end.

Definition json_of_opt_num (o : option Q) : JSON :=
  match o with Some q => JNum q | None => JNull end.
Definition json_of_opt_str (o : option string) : JSON :=
  match o with Some s => JStr s | None => JNull end.

Module Trade.
Record TradeRecord := mkTrade {
  timestamp : string;
  market_slug : string;
  asset : string;
  side : string;
  action : string;
  price : Q;
  quantity : Q;
  value : Q;
  state : string
}.

Definition fields : list string :=
  ["timestamp"; "market_slug"; "asset"; "side"; "action"; "price";
   "quantity"; "value"; "state"].

(** [TradeRecord.to_dict] ([dataclasses.asdict]) *)
Definition to_dict (t : TradeRecord) : JSON :=
  JObj [("timestamp", JStr (timestamp t)); ("market_slug", JStr (market_slug t));
        ("asset", JStr (asset t)); ("side", JStr (side t));
        ("action", JStr (action t)); ("price", JNum (price t));
        ("quantity", JNum (quantity t)); ("value", JNum (value t));
        ("state", JStr (state t))].

(** [TradeRecord( **t)]; [None] when it raises. *)
Definition of_dict (j : JSON) : option TradeRecord :=
  match j with
  | JObj kv =>
      if keys_within fields kv then
        match req_str "timestamp" kv, req_str "market_slug" kv, req_str "asset" kv,
              req_str "side" kv, req_str "action" kv, req_num "price" kv,
              req_num "quantity" kv, req_num "value" kv, req_str "state" kv with
        | Some a, Some b, Some c, Some d, Some e, Some f, Some g, Some h, Some i =>
            Some (mkTrade a b c d e f g h i)
        | _, _, _, _, _, _, _, _, _ => None
        end
      else None
  | _ => None
  end.
End Trade.

Module Cycle.
Record CycleRecord := mkCycle {
  cycle_id : string;
  market_slug : string;
  asset : string;
  start_time : string;
  end_time : option string;
  up_entry_price : option Q;
  up_entry_qty : option Q;
  down_entry_price : option Q;
  down_entry_qty : option Q;
  total_cost : Q;
  locked_profit : Q;
  status : string
}.

Definition fields : list string :=
  ["cycle_id"; "market_slug"; "asset"; "start_time"; "end_time";
   "up_entry_price"; "up_entry_qty"; "down_entry_price"; "down_entry_qty";
   "total_cost"; "locked_profit"; "status"].

(** [CycleRecord.to_dict] *)
Definition to_dict (c : CycleRecord) : JSON :=
  JObj [("cycle_id", JStr (cycle_id c)); ("market_slug", JStr (market_slug c));
        ("asset", JStr (asset c)); ("start_time", JStr (start_time c));
        ("end_time", json_of_opt_str (end_time c));
        ("up_entry_price", json_of_opt_num (up_entry_price c));
        ("up_entry_qty", json_of_opt_num (up_entry_qty c));
        ("down_entry_price", json_of_opt_num (down_entry_price c));
        ("down_entry_qty", json_of_opt_num (down_entry_qty c));
        ("total_cost", JNum (total_cost c)); ("locked_profit", JNum (locked_profit c));
        ("status", JStr (status c))].

(** [CycleRecord( **c)]; [None] when it raises. *)
Definition of_dict (j : JSON) : option CycleRecord :=
  match j with
  | JObj kv =>
      if keys_within fields kv then
        match req_str "cycle_id" kv, req_str "market_slug" kv, req_str "asset" kv,
              req_str "start_time" kv, optional_str "end_time" kv,
              optional_num "up_entry_price" kv, optional_num "up_entry_qty" kv,
              optional_num "down_entry_price" kv, optional_num "down_entry_qty" kv,
              opt_num "total_cost" 0 kv, opt_num "locked_profit" 0 kv,
              opt_str "status" "OPEN" kv with
        | Some a, Some b, Some c, Some d, Some e, Some f, Some g, Some h, Some i,
          Some j, Some k, Some l =>
            Some (mkCycle a b c d e f g h i j k l)
        | _, _, _, _, _, _, _, _, _, _, _, _ => None
        end
      else None
  | _ => None
  end.




(** [end_time = ...; status = ...; locked_profit = ...] in [complete_cycle] *)
Definition close (et st : string) (profit : Q) (c : CycleRecord) : CycleRecord :=
  mkCycle (cycle_id c) (market_slug c) (asset c) (start_time c) (Some et)
    (up_entry_price c) (up_entry_qty c) (down_entry_price c) (down_entry_qty c)
    (total_cost c) profit st.
End Cycle.

Definition nat_q (n : nat) : Q := inject_Z (Z.of_nat n).

Module Stats.
Record PerformanceStats := mkStats {
  total_trades : nat;
  total_cycles : nat;
  completed_cycles : nat;
  locked_cycles : nat;
  stopped_cycles : nat;
  expired_cycles : nat;
  gross_profit : Q;
  gross_loss : Q;
  net_pnl : Q;
  win_rate : Q;
  avg_profit_per_cycle : Q;
  start_time : string;
  end_time : string;
  duration_hours : Q
}.

Definition to_dict (s : PerformanceStats) : JSON :=
  JObj [("total_trades", JNum (nat_q (total_trades s)));
        ("total_cycles", JNum (nat_q (total_cycles s)));
        ("completed_cycles", JNum (nat_q (completed_cycles s)));
        ("locked_cycles", JNum (nat_q (locked_cycles s)));
        ("stopped_cycles", JNum (nat_q (stopped_cycles s)));
        ("expired_cycles", JNum (nat_q (expired_cycles s)));
        ("gross_profit", JNum (gross_profit s)); ("gross_loss", JNum (gross_loss s));
        ("net_pnl", JNum (net_pnl s)); ("win_rate", JNum (win_rate s));
        ("avg_profit_per_cycle", JNum (avg_profit_per_cycle s));
        ("start_time", JStr (start_time s)); ("end_time", JStr (end_time s));
        ("duration_hours", JNum (duration_hours s))].
End Stats.

Import Trade Cycle Stats.

(** The body of the [for cycle in self.cycles] loop of [get_stats]. *)
Definition stats_step (s : PerformanceStats) (c : CycleRecord) : PerformanceStats :=
  let '(mkStats ntr ncy comp lck stp exp gp gl net wr avg st et dh) := s in
  if String.eqb (status c) "LOCKED" then
    if Qltb 0 (locked_profit c)
    then mkStats ntr ncy (S comp) (S lck) stp exp (gp + locked_profit c) gl net wr avg st et dh
    else mkStats ntr ncy (S comp) (S lck) stp exp gp (gl + Qabs (locked_profit c)) net wr avg st et dh
  else if String.eqb (status c) "STOPPED" then
    if Qltb 0 (total_cost c)
    then mkStats ntr ncy (S comp) lck (S stp) exp gp (gl + total_cost c * 0.5) net wr avg st et dh
    else mkStats ntr ncy (S comp) lck (S stp) exp gp gl net wr avg st et dh
  else if String.eqb (status c) "EXPIRED" then
    mkStats ntr ncy comp lck stp (S exp) gp gl net wr avg st et dh
  else s.




(** Python's slice [l[start:]] for an integer [start]: a negative start
    counts from the end and is clipped at 0, a start past the end gives
    the empty list. *)
Definition py_slice_from {A : Type} (l : list A) (start : Z) : list A :=
  let len := Z.of_nat (length l) in
  let st := if Z.ltb start 0 then Z.max 0 (len + start) else Z.min start len in
  skipn (Z.to_nat st) l.

Section Logger.
  (** Python's [datetime] values and the library functions the ledger
      uses, taken as given. *)
Context {datetime : Type}.
Variable isoformat : datetime -> string.
  (** [datetime.fromisoformat]; [None] when it raises. *)
Variable fromisoformat : string -> option datetime.
  (** [(a - b).total_seconds()] *)
Variable total_seconds : datetime -> datetime -> Q.
  (** [now.strftime("%Y%m%d_%H%M%S")] and [now.strftime('%H%M%S')] *)
Variable strftime_session : datetime -> string.
Variable strftime_hms : datetime -> string.

Record TradeLogger := mkLogger {
    session_name : string;
    trades : list TradeRecord;
    cycles : list CycleRecord;
    current_cycle : option CycleRecord;
    session_start : datetime;
    (** the contents of [self.log_file] on disk *)
    log_file : FileState
  }.

Definition set_trades (lg : TradeLogger) (ts : list TradeRecord) :=
    mkLogger (session_name lg) ts (cycles lg) (current_cycle lg) (session_start lg) (log_file lg).
Definition set_cycles (lg : TradeLogger) (cs : list CycleRecord) :=
    mkLogger (session_name lg) (trades lg) cs (current_cycle lg) (session_start lg) (log_file lg).
Definition set_current (lg : TradeLogger) (c : option CycleRecord) :=
    mkLogger (session_name lg) (trades lg) (cycles lg) c (session_start lg) (log_file lg).
Definition set_session_start (lg : TradeLogger) (d : datetime) :=
    mkLogger (session_name lg) (trades lg) (cycles lg) (current_cycle lg) d (log_file lg).
Definition set_log_file (lg : TradeLogger) (f : FileState) :=
    mkLogger (session_name lg) (trades lg) (cycles lg) (current_cycle lg) (session_start lg) f.

  (** [get_stats]; [now] is the value of [datetime.now()]. *)
Definition get_stats (lg : TradeLogger) (now : datetime) : PerformanceStats :=
    let s0 := mkStats (length (trades lg)) (length (cycles lg)) 0 0 0 0 0 0 0 0 0 "" "" 0 in
    let s1 := fold_left stats_step (cycles lg) s0 in
    let net := gross_profit s1 - gross_loss s1 in
    let wr_avg :=
      if Nat.ltb 0 (completed_cycles s1)
      then (nat_q (locked_cycles s1) / nat_q (completed_cycles s1),
            net / nat_q (completed_cycles s1))
      else (0, 0) in
    mkStats (total_trades s1) (total_cycles s1) (completed_cycles s1)
      (locked_cycles s1) (stopped_cycles s1) (expired_cycles s1)
      (gross_profit s1) (gross_loss s1) net (fst wr_avg) (snd wr_avg)
      (isoformat (session_start lg)) (isoformat now)
      (total_seconds now (session_start lg) / 3600).

  (** The document [_save] writes. *)
Definition session_json (lg : TradeLogger) (now : datetime) : JSON :=
    JObj [("session_name", JStr (session_name lg));
          ("session_start", JStr (isoformat (session_start lg)));
          ("session_end", JStr (isoformat now));
          ("trades", JArr (map Trade.to_dict (trades lg)));
          ("cycles", JArr (map Cycle.to_dict (cycles lg)));
          ("stats", Stats.to_dict (get_stats lg now))].

  (** [_save] *)
Definition _save (lg : TradeLogger) (now : datetime) : TradeLogger :=
    set_log_file lg (FileJSON (session_json lg now)).

  (** [_load]: each assignment that precedes a raising statement stays
      done; the exception itself is swallowed. *)
Definition _load (lg : TradeLogger) : TradeLogger :=
    match log_file lg with
    | FileJSON (JObj data) =>
        let trades_v := match jget "trades" data with Some v => v | None => JArr [] end in
        let cycles_v := match jget "cycles" data with Some v => v | None => JArr [] end in
        match match json_iter trades_v with
              | Some l => map_option Trade.of_dict l | None => None end with
        | None => lg
        | Some ts =>
            let lg1 := set_trades lg ts in
            match match json_iter cycles_v with
                  | Some l => map_option Cycle.of_dict l | None => None end with
            | None => lg1
            | Some cs =>
                let lg2 := set_cycles lg1 cs in
                match jget "session_start" data with
                | Some v =>
                    if json_truthy v then
                      match v with
                      | JStr str =>
                          match fromisoformat str with
                          | Some d => set_session_start lg2 d
                          | None => lg2
                          end
                      | _ => lg2
                      end
                    else lg2
                | None => lg2
                end
            end
        end
    | _ => lg
    end.

  (** [TradeLogger(log_dir, session_name)]: [file] is what the disk holds
      at [log_dir / f"session_{name}.json"]. *)
Definition init (name : option string) (now : datetime) (file : FileState)
    : TradeLogger :=
    let n := match name with
             | Some x => if String.eqb x "" then strftime_session now else x
             | None => strftime_session now
             end in
    _load (mkLogger n [] [] None now file).



  (** [complete_cycle] *)
Definition complete_cycle (lg : TradeLogger) (st : string) (profit : Q)
      (now : datetime) : TradeLogger :=
    match current_cycle lg with
    | None => lg
    | Some c =>
        let lg1 := set_cycles lg (cycles lg ++ [close (isoformat now) st profit c]) in
        _save (set_current lg1 None) now
    end.

  (** [get_recent_trades]: [self.trades[-n:]] *)
Definition get_recent_trades (lg : TradeLogger) (n : Z) : list TradeRecord :=
    py_slice_from (trades lg) (- n).

  (** [get_recent_cycles]: [self.cycles[-n:]] *)
Definition get_recent_cycles (lg : TradeLogger) (n : Z) : list CycleRecord :=
    py_slice_from (cycles lg) (- n).
End Logger.

End Ledger.

(** ** Settings ([config.py]) *)
Module Config.

Record MarketConfig := mkMarketConfig {
  condition_id : string;
  yes_token_id : string;
  no_token_id : string;
  strike_price : Q
}.

Record TradingConfig := mkTradingConfig {
  target_margin : Q;
  min_profit : Q;
  stop_loss_threshold : Q;
  gamma_stop_minutes : Q;
  position_size : Q;
  volatility : Q
}.

Record Config := mkConfig {
  private_key : string;
  clob_host : string;
  chain_id : Z;
  api_key : string;
  api_secret : string;
  api_passphrase : string;
  signature_type : Z;
  funder : string;
  market : MarketConfig;
  trading : TradingConfig;
  paper_mode : bool
}.

(** [str.lower] on ASCII text. *)
Definition ascii_lower (c : Ascii.ascii) : Ascii.ascii :=
  let n := Ascii.nat_of_ascii c in
  if Nat.leb 65 n && Nat.leb n 90 then Ascii.ascii_of_nat (n + 32)%nat else c.

Fixpoint py_lower (s : string) : string :=
  match s with
  | EmptyString => EmptyString
  | String c s' => String (ascii_lower c) (py_lower s')
  end.

Section Load.
  (** The process environment ([os.getenv] without default). *)
Variable getenv : string -> option string.
  (** [str.strip] *)
Variable py_strip : string -> string.
  (** [int(s)] and [float(s)] on a string; [None] when they raise
      [ValueError]. *)
Variable py_int : string -> option Z.
Variable py_float : string -> option Q.

  (** [os.getenv(k, dflt)] *)
Definition env (k dflt : string) : string :=
    match getenv k with Some v => v | None => dflt end.

  (** [load_config]; every conversion that is not guarded raises
      [ValueError]. *)
Definition load_config : OrderManager.Live.Outcome Config :=
    let private_key := env "POLYMARKET_PRIVATE_KEY" "" in
    if String.eqb private_key "" && String.eqb (env "TRADING_MODE" "paper") "live"
    then OrderManager.Live.Raises "ValueError"
    else
      let api_key := py_strip (env "POLYMARKET_API_KEY" "") in
      let api_secret := py_strip (env "POLYMARKET_API_SECRET" "") in
      let api_passphrase := py_strip (env "POLYMARKET_API_PASSPHRASE" "") in
      let signature_type_raw := py_strip (env "POLYMARKET_SIGNATURE_TYPE" "") in
      let signature_type :=
        if String.eqb signature_type_raw "" then 2%Z
        else match py_int signature_type_raw with Some i => i | None => 2%Z end in
      let funder := py_strip (env "POLYMARKET_FUNDER" "") in
      match py_float (env "STRIKE_PRICE" "100000"),
            py_float (env "TARGET_MARGIN" "0.03"), py_float (env "MIN_PROFIT" "0.02"),
            py_float (env "STOP_LOSS_THRESHOLD" "0.15"),
            py_float (env "GAMMA_STOP_MINUTES" "2"), py_float (env "POSITION_SIZE" "50.0"),
            py_float (env "VOLATILITY" "0.60"), py_int (env "CHAIN_ID" "137") with
      | Some sp, Some tm, Some mp, Some sl, Some gs, Some ps, Some vol, Some cid =>
          OrderManager.Live.Returns
            (mkConfig private_key (env "CLOB_HOST" "https://clob.polymarket.com") cid
               api_key api_secret api_passphrase signature_type funder
               (mkMarketConfig (env "CONDITION_ID" "") (env "YES_TOKEN_ID" "")
                  (env "NO_TOKEN_ID" "") sp)
               (mkTradingConfig tm mp sl gs ps vol)
               (String.eqb (py_lower (env "TRADING_MODE" "paper")) "paper"))
      | _, _, _, _, _, _, _, _ => OrderManager.Live.Raises "ValueError"
      end.
End Load.

End Config.

(** * Properties *)

Import OrderManager.

(** ** Comparisons *)

Lemma Qltb_true (x y : Q) : Qltb x y = true <-> x < y.
Proof.
  unfold Qltb. rewrite negb_true_iff. split.
  - intros H. apply Qnot_le_lt. intros H'. apply Qle_bool_iff in H'. congruence.
  - intros H. destruct (Qle_bool y x) eqn:E; [|reflexivity].
    apply Qle_bool_iff in E. exfalso. apply (Qlt_not_le x y); assumption.
Qed.

Lemma Qltb_false (x y : Q) : Qltb x y = false <-> y <= x.
Proof.
  unfold Qltb. rewrite negb_false_iff. apply Qle_bool_iff.
Qed.

(** ** The stable insertion sort sorts and permutes *)

Section SortFacts.
Context {A : Type} (before : A -> A -> bool) (le : A -> A -> Prop).
Hypothesis before_true : forall x y, before x y = true -> le x y.
Hypothesis before_false : forall x y, before x y = false -> le y x.

Lemma insert_stable_perm (x : A) (l : list A) :
    Permutation (insert_stable before x l) (x :: l).
  Proof.
    induction l as [|y ys IH]; simpl; [reflexivity|].
    destruct (before x y); [reflexivity|].
    rewrite IH. apply perm_swap.
  Qed.

Lemma insert_stable_sorted (x : A) (l : list A) :
    Sorted le l -> Sorted le (insert_stable before x l).
  Proof.
    induction l as [|y ys IH]; simpl; intros Hs.
    - repeat constructor.
    - destruct (before x y) eqn:Exy.
      + constructor; [exact Hs | constructor; auto].
      + apply Sorted_inv in Hs as [Hys Hhd].
        constructor; [now apply IH|].
        destruct ys as [|z zs]; simpl.
        * constructor. auto.
        * destruct (before x z); constructor; [auto|].
          now inversion Hhd.
  Qed.

Lemma sort_stable_perm_acc (l acc : list A) :
    Permutation (fold_left (fun acc x => insert_stable before x acc) l acc) (acc ++ l).
  Proof.
    revert acc. induction l as [|x l IH]; intros acc; simpl.
    - now rewrite app_nil_r.
    - rewrite IH, insert_stable_perm.
      rewrite <- Permutation_middle. reflexivity.
  Qed.

Lemma sort_stable_perm (l : list A) : Permutation (sort_stable before l) l.
  Proof. apply sort_stable_perm_acc. Qed.

Lemma sort_stable_sorted (l : list A) : Sorted le (sort_stable before l).
  Proof.
    unfold sort_stable.
    assert (forall acc, Sorted le acc ->
              Sorted le (fold_left (fun acc x => insert_stable before x acc) l acc))
      as H.
    { induction l as [|x l IH]; intros acc Hacc; simpl; [exact Hacc|].
      apply IH, insert_stable_sorted, Hacc. }
    apply H. constructor.
  Qed.
End SortFacts.

(** Bids: non-increasing prices; asks: non-decreasing prices. *)
Definition desc_le (x y : Q * Q) : Prop := fst y <= fst x.
Definition asc_le (x y : Q * Q) : Prop := fst x <= fst y.

Lemma sort_desc_sorted (l : list (Q * Q)) : Sorted desc_le (sort_desc l).
Proof.
  apply sort_stable_sorted; unfold desc_le; intros x y H.
  - apply Qlt_le_weak, Qltb_true, H.
  - apply Qltb_false, H.
Qed.

Lemma sort_asc_sorted (l : list (Q * Q)) : Sorted asc_le (sort_asc l).
Proof.
  apply sort_stable_sorted; unfold asc_le; intros x y H.
  - apply Qlt_le_weak, Qltb_true, H.
  - apply Qltb_false, H.
Qed.

Lemma sort_desc_perm (l : list (Q * Q)) : Permutation (sort_desc l) l.
Proof. apply sort_stable_perm. Qed.

Lemma sort_asc_perm (l : list (Q * Q)) : Permutation (sort_asc l) l.
Proof. apply sort_stable_perm. Qed.

(** ** Books produced by ingestion *)

Definition positive_level (x : Q * Q) : Prop := 0 < fst x /\ 0 < snd x.

(** The shape every paper-engine book has. *)
Definition paper_book_ok (b : OrderBook) : Prop :=
  Sorted desc_le (bids b) /\ Sorted asc_le (asks b) /\
  Forall positive_level (bids b) /\ Forall positive_level (asks b).

Lemma parse_levels_positive (raw : list Paper.RawLevel) (out : list (Q * Q)) :
  Paper.parse_levels raw = Some out -> Forall positive_level out.
Proof.
  revert out; induction raw as [|r raw IH]; intros out H; simpl in H.
  - injection H as <-. constructor.
  - destruct r as [p s|]; [|discriminate].
    destruct (Paper.parse_levels raw) as [o|]; [|discriminate].
    injection H as <-.
    destruct (Qltb 0 p) eqn:Ep, (Qltb 0 s) eqn:Es; simpl; try (apply IH; reflexivity).
    constructor; [|apply IH; reflexivity].
    split; apply Qltb_true; assumption.
Qed.

Lemma Forall_perm_sort {P : Q * Q -> Prop} (l l' : list (Q * Q)) :
  Permutation l' l -> Forall P l -> Forall P l'.
Proof.
  intros Hp Hf. apply Forall_forall. intros x Hx.
  eapply Forall_forall; [exact Hf|]. eapply Permutation_in; eassumption.
Qed.

Lemma default_book_ok : paper_book_ok Paper.default_book.
Proof.
  unfold paper_book_ok, positive_level; simpl.
  repeat split; repeat constructor; cbv; reflexivity.
Qed.

Lemma fetch_live_order_book_ok (r : Paper.FetchResult) :
  paper_book_ok (Paper._fetch_live_order_book r).
Proof.
  destruct r as [code [rb ra|]| |]; simpl; try apply default_book_ok.
  destruct (Z.eqb code 200); [|apply default_book_ok].
  destruct (Paper.parse_levels rb) as [b|] eqn:Eb; [|apply default_book_ok].
  destruct (Paper.parse_levels ra) as [a|] eqn:Ea; [|apply default_book_ok].
  assert (paper_book_ok (mkBook (sort_desc b) (sort_asc a))) as Hok.
  { unfold paper_book_ok; simpl. split; [apply sort_desc_sorted|].
    split; [apply sort_asc_sorted|]. split.
    - eapply Forall_perm_sort; [apply sort_desc_perm|]. eapply parse_levels_positive; eauto.
    - eapply Forall_perm_sort; [apply sort_asc_perm|]. eapply parse_levels_positive; eauto. }
  destruct (sort_desc b), (sort_asc a); try exact Hok. apply default_book_ok.
Qed.

Lemma live_get_order_book_sorted (r : Live.BookFetch) :
  Sorted desc_le (bids (Live.get_order_book r)) /\
  Sorted asc_le (asks (Live.get_order_book r)).
Proof.
  destruct r as [[|rb ra]|]; simpl; try (split; constructor).
  destruct (Live.to_levels rb), (Live.to_levels ra); simpl; try (split; constructor).
  split; [apply sort_desc_sorted | apply sort_asc_sorted].
Qed.

(** C2 (amended). Every book built by ingestion has its bids in
    non-increasing and its asks in non-decreasing price order, in both
    engines (equal prices are kept side by side, not merged); every level
    of a book built by the paper engine's live fetch has a positive price
    and a positive size. *)
Theorem C2_ingested_books_sorted :
  (forall r : Paper.FetchResult,
     paper_book_ok (Paper._fetch_live_order_book r)) /\
  (forall r : Live.BookFetch,
     Sorted desc_le (bids (Live.get_order_book r)) /\
     Sorted asc_le (asks (Live.get_order_book r))).
Proof.
  split; [apply fetch_live_order_book_ok | apply live_get_order_book_sorted].
Qed.

(** Strictly descending bid prices, as the claim states them. *)
Definition strictly_desc (l : list (Q * Q)) : Prop :=
  Sorted (fun x y => fst y < fst x) l.

(** C2 counterexample: two raw bids at the same price 0.5 both survive
    the paper fetch, so the bids are not strictly descending. *)
Lemma C2_duplicate_price_counterexample :
  let b := Paper._fetch_live_order_book
             (Paper.Fetch_response 200
                (Paper.Payload_book [Paper.RawLevel_ok 0.5 10; Paper.RawLevel_ok 0.5 5] [])) in
  bids b = [(0.5, 10); (0.5, 5)] /\ ~ strictly_desc (bids b).
Proof.
  simpl. split; [reflexivity|].
  unfold strictly_desc. intros H. inversion H as [|x l Hs Hhd]; subst.
  inversion Hhd; subst. simpl in *. cbv in H1. discriminate.
Qed.

(** ** Book queries never fail *)

(** C5 (amended). [get_order_book] returns a book for every outcome of
    the fetch (the model has no error result for it). Paper engine: a
    non-200 status, a malformed payload, a raising level, a timeout or
    any other exception, and also a 200 payload without any level of
    positive price and size, all give the default book [(0.50, 100)] /
    [(0.52, 100)]; a 200 payload with valid levels gives those levels,
    sorted; a fresh cache is served as it is. Live engine: a raising
    fetch or normalisation gives the empty book, and an empty venue book
    gives the empty book, which has no ask. *)
Theorem C5_order_book_fallbacks :
  (forall code body, code <> 200%Z ->
     Paper._fetch_live_order_book (Paper.Fetch_response code body) = Paper.default_book) /\
  Paper._fetch_live_order_book Paper.Fetch_timeout = Paper.default_book /\
  Paper._fetch_live_order_book Paper.Fetch_error = Paper.default_book /\
  Paper._fetch_live_order_book (Paper.Fetch_response 200 Paper.Payload_bad)
    = Paper.default_book /\
  (forall rb ra, Paper.parse_levels rb = None \/ Paper.parse_levels ra = None ->
     Paper._fetch_live_order_book (Paper.Fetch_response 200 (Paper.Payload_book rb ra))
       = Paper.default_book) /\
  (forall rb ra,
     Paper.parse_levels rb = Some [] -> Paper.parse_levels ra = Some [] ->
     Paper._fetch_live_order_book (Paper.Fetch_response 200 (Paper.Payload_book rb ra))
       = Paper.default_book) /\
  (forall rb ra b a,
     Paper.parse_levels rb = Some b -> Paper.parse_levels ra = Some a -> b ++ a <> [] ->
     Paper._fetch_live_order_book (Paper.Fetch_response 200 (Paper.Payload_book rb ra))
       = mkBook (sort_desc b) (sort_asc a)) /\
  (forall m s w,
     fst (Paper.get_order_book m s w) =
       if Qltb (Paper.cache_ttl m) (Paper.clock w - Paper.cache_time m)
       then Paper._fetch_live_order_book
              (match s with YES => Paper.resp_yes w | NO => Paper.resp_no w end)
       else Paper.cached_book m s) /\
  Live.get_order_book Live.BookFetch_raise = Live.empty_book /\
  (forall raw, Live._normalize_order_book_summary raw = None ->
     Live.get_order_book (Live.BookFetch_ok raw) = Live.empty_book) /\
  Live.get_order_book (Live.BookFetch_ok (Live.Raw_summary (Live.Levels_list [])
                                                          (Live.Levels_list [])))
    = Live.empty_book /\
  best_ask Live.empty_book = None.
Proof.
  repeat split.
  - intros code body H. simpl. destruct body; [|reflexivity].
    apply Z.eqb_neq in H. rewrite H. reflexivity.
  - intros rb ra [H|H]; simpl; rewrite H; [reflexivity|].
    destruct (Paper.parse_levels rb); reflexivity.
  - intros rb ra Hb Ha. simpl. rewrite Hb, Ha. reflexivity.
  - intros rb ra b a Hb Ha Hne. simpl. rewrite Hb, Ha.
    assert (sort_desc b ++ sort_asc a <> []) as Hne'.
    { intros H. apply app_eq_nil in H as [H1 H2].
      pose proof (sort_desc_perm b) as P1. pose proof (sort_asc_perm a) as P2.
      rewrite H1 in P1. rewrite H2 in P2.
      apply Permutation_nil in P1. apply Permutation_nil in P2.
      apply Hne. subst. reflexivity. }
    destruct (sort_desc b), (sort_asc a); try reflexivity. simpl in Hne'. congruence.
  - intros m s w. unfold Paper.get_order_book.
    destruct (Qltb _ _); simpl; [destruct s|]; reflexivity.
  - intros raw H. simpl. rewrite H. reflexivity.
Qed.

(** C5 counterexample: the venue answers 200 with a book that has no
    level on either side; the paper engine reports the default two-sided
    book, with best ask 0.52, instead of a book without liquidity. *)
Lemma C5_empty_book_counterexample :
  Paper._fetch_live_order_book
    (Paper.Fetch_response 200 (Paper.Payload_book [] [])) = Paper.default_book /\
  best_ask (fst (Paper.get_order_book (Paper.init "yes" "no" 0.05 true) YES
                   (Paper.mkTick 100 (Paper.Fetch_response 200 (Paper.Payload_book [] []))
                                     (Paper.Fetch_response 200 (Paper.Payload_book [] [])))))
    = Some 0.52.
Proof. split; vm_compute; reflexivity. Qed.

(** ** The order table *)

Lemma dict_get_id (k : string) (t : list Order) (c : Order) :
  dict_get k t = Some c -> id c = k.
Proof.
  induction t as [|o t IH]; simpl; [discriminate|].
  destruct (String.eqb (id o) k) eqn:E; [|exact IH].
  intros H. injection H as <-. apply String.eqb_eq, E.
Qed.

Lemma dict_get_set_same (o : Order) (t : list Order) :
  dict_get (id o) (dict_set o t) = Some o.
Proof.
  induction t as [|o' t IH]; simpl.
  - now rewrite String.eqb_refl.
  - destruct (String.eqb (id o') (id o)) eqn:E; simpl.
    + now rewrite String.eqb_refl.
    + rewrite E. exact IH.
Qed.

Lemma dict_get_update_same (k : string) (f : Order -> Order) (t : list Order) :
  (forall o, id (f o) = id o) ->
  dict_get k (dict_update k f t) = option_map f (dict_get k t).
Proof.
  intros Hf. induction t as [|o t IH]; simpl; [reflexivity|].
  destruct (String.eqb (id o) k) eqn:E; simpl.
  - rewrite Hf, E. reflexivity.
  - rewrite E. exact IH.
Qed.

Lemma dict_get_update_other (k k' : string) (f : Order -> Order) (t : list Order) :
  (forall o, id (f o) = id o) -> k' <> k ->
  dict_get k' (dict_update k f t) = dict_get k' t.
Proof.
  intros Hf Hne. induction t as [|o t IH]; simpl; [reflexivity|].
  destruct (String.eqb (id o) k) eqn:E; simpl.
  - rewrite Hf. apply String.eqb_eq in E. subst k.
    destruct (String.eqb (id o) k') eqn:E'; [|reflexivity].
    apply String.eqb_eq in E'. congruence.
  - rewrite IH. reflexivity.
Qed.

Lemma dict_get_not_in (k : string) (t : list Order) :
  ~ In k (map id t) -> dict_get k t = None.
Proof.
  induction t as [|o t IH]; simpl; intros Hn; [reflexivity|].
  destruct (String.eqb (id o) k) eqn:E.
  - apply String.eqb_eq in E. exfalso. apply Hn. left. exact E.
  - apply IH. intros H. apply Hn. right. exact H.
Qed.

Lemma dict_get_middle (pre post : list Order) (o : Order) :
  NoDup (map id (pre ++ o :: post)) -> dict_get (id o) (pre ++ o :: post) = Some o.
Proof.
  induction pre as [|x pre IH]; simpl; intros Hnd.
  - now rewrite String.eqb_refl.
  - inversion Hnd as [|? ? Hnotin Hnd']; subst.
    destruct (String.eqb (id x) (id o)) eqn:E.
    + apply String.eqb_eq in E. exfalso. apply Hnotin. rewrite E.
      rewrite map_app. apply in_or_app. right. left. reflexivity.
    + apply IH, Hnd'.
Qed.

Lemma with_fill_id (q p : Q) (o : Order) : id (with_fill q p o) = id o.
Proof. reflexivity. Qed.

Lemma with_status_id (st : OrderStatus) (o : Order) : id (with_status st o) = id o.
Proof. reflexivity. Qed.

(** ** Paper engine: the cache invariant *)

(** Every cached book has the shape of an ingested book. *)
Definition paper_ok (m : Paper.PaperOrderManager) : Prop :=
  (forall b, Paper.cached_yes m = Some b -> paper_book_ok b) /\
  (forall b, Paper.cached_no m = Some b -> paper_book_ok b).

Lemma paper_ok_init (yes no : string) (prob : Q) (realistic : bool) :
  paper_ok (Paper.init yes no prob realistic).
Proof. split; simpl; discriminate. Qed.

Lemma cached_book_ok (m : Paper.PaperOrderManager) (s : OrderSide) :
  paper_ok m -> paper_book_ok (Paper.cached_book m s).
Proof.
  intros [Hy Hn]. unfold Paper.cached_book.
  destruct s; [destruct (Paper.cached_yes m) eqn:E | destruct (Paper.cached_no m) eqn:E];
    auto using default_book_ok.
Qed.

Lemma get_order_book_ok (m : Paper.PaperOrderManager) (s : OrderSide) (w : Paper.Tick) :
  paper_ok m ->
  paper_book_ok (fst (Paper.get_order_book m s w)) /\
  paper_ok (snd (Paper.get_order_book m s w)).
Proof.
  intros Hok. unfold Paper.get_order_book.
  destruct (Qltb _ _); simpl.
  - assert (paper_ok (Paper.set_cache m (Paper._fetch_live_order_book (Paper.resp_yes w))
                        (Paper._fetch_live_order_book (Paper.resp_no w)) (Paper.clock w))) as H.
    { split; simpl; intros b Hb; injection Hb as <-; apply fetch_live_order_book_ok. }
    split; [apply cached_book_ok|]; exact H.
  - split; [apply cached_book_ok|]; exact Hok.
Qed.

(** [get_order_book] reads and writes only the cache. *)
Lemma get_order_book_frame (m : Paper.PaperOrderManager) (s : OrderSide) (w : Paper.Tick) :
  let m' := snd (Paper.get_order_book m s w) in
  Paper.orders m' = Paper.orders m /\ Paper.fill_calls m' = Paper.fill_calls m /\
  Paper.fill_callback_set m' = Paper.fill_callback_set m /\
  Paper.realistic_mode m' = Paper.realistic_mode m.
Proof.
  unfold Paper.get_order_book. destruct (Qltb _ _); simpl; auto.
Qed.

Lemma get_order_book_set_orders (m : Paper.PaperOrderManager) (t : list Order)
    (s : OrderSide) (w : Paper.Tick) :
  Paper.get_order_book (Paper.set_orders m t) s w =
  (fst (Paper.get_order_book m s w), Paper.set_orders (snd (Paper.get_order_book m s w)) t).
Proof.
  unfold Paper.get_order_book. simpl. destruct (Qltb _ _); reflexivity.
Qed.

Lemma paper_book_best_ask_pos (b : OrderBook) (a : Q) :
  paper_book_ok b -> best_ask b = Some a -> 0 < a.
Proof.
  intros (_ & _ & _ & Ha) E. unfold best_ask in E.
  destruct (asks b) as [|[p sz] rest]; [discriminate|].
  injection E as <-. inversion Ha as [|? ? [Hp _] _]. exact Hp.
Qed.

Lemma Qeq_bool_pos_false (a : Q) : 0 < a -> Qeq_bool a 0 = false.
Proof.
  intros H. destruct (Qeq_bool a 0) eqn:E; [|reflexivity].
  apply Qeq_bool_iff in E. rewrite E in H. discriminate.
Qed.

(** ** Paper engine: placement *)

Lemma paper_place_limit_buy_realistic (m : Paper.PaperOrderManager) (s : OrderSide)
    (p sz : Q) (oid : string) (w : Paper.Tick) (rnd : Q) :
  paper_ok m -> Paper.realistic_mode m = true ->
  let book := fst (Paper.get_order_book m s w) in
  let res := Paper.place_limit_buy m s p sz oid w rnd in
  dict_get oid (Paper.orders (snd res)) = Some (fst res) /\
  paper_ok (snd res) /\
  match best_ask book with
  | Some a =>
      (a <= p ->
         status (fst res) = FILLED /\ filled_qty (fst res) = sz /\
         filled_avg_price (fst res) = a /\
         Paper.fill_calls (snd res) =
           Paper.fill_calls m ++
             (if Paper.fill_callback_set m then [(side_value s, a, sz)] else [])) /\
      (p < a ->
         status (fst res) = OPEN /\ filled_qty (fst res) = 0 /\
         Paper.fill_calls (snd res) = Paper.fill_calls m)
  | None => status (fst res) = OPEN /\ Paper.fill_calls (snd res) = Paper.fill_calls m
  end.
Proof.
  intros Hok Hreal. cbv zeta. unfold Paper.place_limit_buy.
  rewrite get_order_book_set_orders.
  pose proof (get_order_book_ok m s w Hok) as [Hbook Hok2].
  pose proof (get_order_book_frame m s w) as (Ho & Hc & Hcb & Hr).
  destruct (Paper.get_order_book m s w) as [book m2]; simpl in *.
  rewrite Hr, Hreal.
  set (order := mkOrder oid s p sz OPEN 0 0 (Paper.get_token_id m s)).
  assert (dict_get oid (dict_set order (Paper.orders m)) = Some order) as Hget.
  { apply (dict_get_set_same order). }
  assert (paper_ok (Paper.set_orders m2 (dict_set order (Paper.orders m)))) as Hok3
    by exact Hok2.
  destruct (best_ask book) as [a|] eqn:Ea.
  - pose proof (paper_book_best_ask_pos book a Hbook Ea) as Hpos.
    rewrite (Qeq_bool_pos_false a Hpos). simpl.
    destruct (Qle_bool a p) eqn:Ep.
    + apply Qle_bool_iff in Ep. simpl.
      split; [|split; [exact Hok2|split]].
      * rewrite dict_get_update_same by apply with_fill_id. rewrite Hget. reflexivity.
      * intros _. rewrite Hc, Hcb. repeat split.
        destruct (Paper.fill_callback_set m); [reflexivity|now rewrite app_nil_r].
      * intros Hlt. exfalso. apply (Qlt_not_le p a); assumption.
    + simpl. split; [exact Hget|split; [exact Hok3|split]].
      * intros Hle. apply Qle_bool_iff in Hle. congruence.
      * intros _. simpl. repeat split. exact Hc.
  - simpl. split; [exact Hget|split; [exact Hok3|]]. split; [reflexivity|exact Hc].
Qed.

(** ** Paper engine: the periodic re-check *)

Lemma snd_let_S {A : Type} (pr : nat * A) :
  snd (let (n, x) := pr in (S n, x)) = snd pr.
Proof. destruct pr; reflexivity. Qed.

Lemma check_loop_frame (ws : nat -> Paper.Tick) (l : list Order) :
  forall (i : nat) (m : Paper.PaperOrderManager),
  paper_ok m ->
  let m' := snd (Paper.check_loop ws i l m) in
  paper_ok m' /\ Paper.fill_callback_set m' = Paper.fill_callback_set m /\
  (exists sfx, Paper.fill_calls m' = Paper.fill_calls m ++ sfx) /\
  (forall k, ~ In k (map id l) -> dict_get k (Paper.orders m') = dict_get k (Paper.orders m)).
Proof.
  induction l as [|x l IH]; intros i m Hok; simpl.
  - split; [exact Hok|split; [reflexivity|split]].
    + exists []. now rewrite app_nil_r.
    + reflexivity.
  - set (cur := match dict_get (id x) (Paper.orders m) with Some c => c | None => x end).
    assert (id cur = id x) as Hid.
    { unfold cur. destruct (dict_get (id x) (Paper.orders m)) eqn:E; [|reflexivity].
      apply (dict_get_id _ _ _ E). }
    destruct (negb (status_eqb (status cur) OPEN)).
    + destruct (IH (S i) m Hok) as (H1 & H2 & H3 & H4).
      split; [exact H1|split; [exact H2|split; [exact H3|]]].
      intros k Hk. apply H4. intros Hin. apply Hk. right. exact Hin.
    + pose proof (get_order_book_ok m (side cur) (ws i) Hok) as [Hbook Hok1].
      pose proof (get_order_book_frame m (side cur) (ws i)) as (Ho & Hc & Hcb & _).
      destruct (Paper.get_order_book m (side cur) (ws i)) as [book m1]; simpl in *.
      assert (forall m0, paper_ok m0 -> Paper.orders m0 = Paper.orders m ->
                Paper.fill_callback_set m0 = Paper.fill_callback_set m ->
                Paper.fill_calls m0 = Paper.fill_calls m ->
                let m' := snd (Paper.check_loop ws (S i) l m0) in
                paper_ok m' /\ Paper.fill_callback_set m' = Paper.fill_callback_set m /\
                (exists sfx, Paper.fill_calls m' = Paper.fill_calls m ++ sfx) /\
                (forall k, ~ In k (map id (x :: l)) ->
                   dict_get k (Paper.orders m') = dict_get k (Paper.orders m))) as Hskip.
      { intros m0 Hok0 Ho0 Hcb0 Hc0.
        destruct (IH (S i) m0 Hok0) as (H1 & H2 & [sfx H3] & H4).
        split; [exact H1|split; [congruence|split]].
        - exists sfx. rewrite H3, Hc0. reflexivity.
        - intros k Hk. rewrite H4, Ho0; [reflexivity|].
          intros Hin. apply Hk. right. exact Hin. }
      destruct (best_ask book) as [a|].
      * destruct (negb (Qeq_bool a 0) && Qle_bool a (price cur)).
        -- rewrite snd_let_S.
           set (m3 := Paper._notify_fill
                        (Paper.set_orders m1 (dict_update (id cur)
                           (with_fill (size cur) a) (Paper.orders m1)))
                        (side_value (side cur)) a (size cur)).
           assert (paper_ok m3) as Hok3 by exact Hok1.
           destruct (IH (S i) m3 Hok3) as (H1 & H2 & [sfx H3] & H4).
           split; [exact H1|split; [|split]].
           ++ rewrite H2. simpl. exact Hcb.
           ++ rewrite H3. simpl. rewrite Hcb, Hc.
              destruct (Paper.fill_callback_set m);
                [exists ((side_value (side cur), a, size cur) :: sfx)
                | exists sfx]; rewrite <- ?app_assoc; reflexivity.
           ++ intros k Hk. rewrite H4.
              ** simpl. rewrite dict_get_update_other.
                 --- rewrite Ho. reflexivity.
                 --- apply with_fill_id.
                 --- rewrite Hid. intros E. apply Hk. left. symmetry. exact E.
              ** intros Hin. apply Hk. right. exact Hin.
        -- apply Hskip; assumption.
      * apply Hskip; assumption.
Qed.

Lemma check_loop_app_snd (ws : nat -> Paper.Tick) (l1 l2 : list Order) :
  forall (i : nat) (m : Paper.PaperOrderManager),
  snd (Paper.check_loop ws i (l1 ++ l2) m) =
  snd (Paper.check_loop ws (i + length l1) l2 (snd (Paper.check_loop ws i l1 m))).
Proof.
  induction l1 as [|x l1 IH]; intros i m; simpl.
  - now rewrite Nat.add_0_r.
  - replace (i + S (length l1))%nat with (S i + length l1)%nat by lia.
    destruct (negb (status_eqb _ OPEN)); [apply IH|].
    destruct (Paper.get_order_book _ _ _) as [book m1].
    destruct (best_ask book) as [a|]; [|apply IH].
    destruct (_ && _); [|apply IH].
    rewrite !snd_let_S. apply IH.
Qed.

Lemma check_loop_cons_open (ws : nat -> Paper.Tick) (i : nat) (o : Order)
    (rest : list Order) (m : Paper.PaperOrderManager) :
  dict_get (id o) (Paper.orders m) = Some o -> status o = OPEN ->
  snd (Paper.check_loop ws i (o :: rest) m) =
  let (book, m1) := Paper.get_order_book m (side o) (ws i) in
  match best_ask book with
  | Some a =>
      if negb (Qeq_bool a 0) && Qle_bool a (price o)
      then snd (Paper.check_loop ws (S i) rest
                  (Paper._notify_fill
                     (Paper.set_orders m1 (dict_update (id o) (with_fill (size o) a)
                                             (Paper.orders m1)))
                     (side_value (side o)) a (size o)))
      else snd (Paper.check_loop ws (S i) rest m1)
  | None => snd (Paper.check_loop ws (S i) rest m1)
  end.
Proof.
  intros Hg Hs. simpl. rewrite Hg, Hs. simpl.
  destruct (Paper.get_order_book m (side o) (ws i)) as [book m1].
  destruct (best_ask book); [destruct (_ && _)|]; try rewrite snd_let_S; reflexivity.
Qed.

Lemma nodup_ids_middle (pre post : list Order) (o : Order) :
  NoDup (map id (pre ++ o :: post)) ->
  ~ In (id o) (map id pre) /\ ~ In (id o) (map id post).
Proof.
  rewrite map_app. simpl. intros H. apply NoDup_remove_2 in H.
  split; intros Hin; apply H; apply in_or_app; auto.
Qed.

Lemma paper_check_pending_fills_order (ws : nat -> Paper.Tick)
    (m : Paper.PaperOrderManager) (pre post : list Order) (o : Order) :
  paper_ok m -> NoDup (map id (Paper.orders m)) ->
  Paper.orders m = pre ++ o :: post -> status o = OPEN ->
  let m_mid := snd (Paper.check_loop ws 0 pre m) in
  let book := fst (Paper.get_order_book m_mid (side o) (ws (length pre))) in
  let m_fin := snd (Paper.check_pending_fills ws m) in
  match best_ask book with
  | Some a =>
      if Qle_bool a (price o)
      then dict_get (id o) (Paper.orders m_fin) = Some (with_fill (size o) a o) /\
           (Paper.fill_callback_set m = true ->
            In (side_value (side o), a, size o) (Paper.fill_calls m_fin))
      else dict_get (id o) (Paper.orders m_fin) = Some o
  | None => dict_get (id o) (Paper.orders m_fin) = Some o
  end.
Proof.
  intros Hok Hnd Hord Hst. cbv zeta.
  rewrite Hord in Hnd.
  destruct (nodup_ids_middle pre post o Hnd) as [Hpre Hpost].
  unfold Paper.check_pending_fills. rewrite Hord, check_loop_app_snd. simpl (0 + _)%nat.
  destruct (check_loop_frame ws pre 0 m Hok) as (Hok1 & Hcb1 & [sfx1 Hc1] & Hk1).
  set (m_mid := snd (Paper.check_loop ws 0 pre m)) in *.
  assert (dict_get (id o) (Paper.orders m_mid) = Some o) as Hg.
  { rewrite Hk1 by exact Hpre. rewrite Hord. apply dict_get_middle, Hnd. }
  rewrite (check_loop_cons_open ws (length pre) o post m_mid Hg Hst).
  pose proof (get_order_book_ok m_mid (side o) (ws (length pre)) Hok1) as [Hbook Hok2].
  pose proof (get_order_book_frame m_mid (side o) (ws (length pre))) as (Ho2 & Hc2 & Hcb2 & _).
  destruct (Paper.get_order_book m_mid (side o) (ws (length pre))) as [book m1].
  simpl in *.
  destruct (best_ask book) as [a|] eqn:Ea.
  - rewrite (Qeq_bool_pos_false a (paper_book_best_ask_pos book a Hbook Ea)). simpl.
    destruct (Qle_bool a (price o)).
    + set (m3 := Paper._notify_fill
                   (Paper.set_orders m1 (dict_update (id o) (with_fill (size o) a)
                                           (Paper.orders m1)))
                   (side_value (side o)) a (size o)).
      assert (paper_ok m3) as Hok3 by exact Hok2.
      destruct (check_loop_frame ws post (S (length pre)) m3 Hok3)
        as (_ & _ & [sfx3 Hc3] & Hk3).
      split.
      * rewrite Hk3 by exact Hpost. simpl.
        rewrite dict_get_update_same by apply with_fill_id.
        rewrite Ho2, Hg. reflexivity.
      * intros Hcb. rewrite Hc3. simpl. rewrite Hcb2, Hcb1, Hcb.
        apply in_or_app. left. apply in_or_app. right. left. reflexivity.
    + destruct (check_loop_frame ws post (S (length pre)) m1 Hok2) as (_ & _ & _ & Hk3).
      rewrite Hk3 by exact Hpost. rewrite Ho2. exact Hg.
  - destruct (check_loop_frame ws post (S (length pre)) m1 Hok2) as (_ & _ & _ & Hk3).
    rewrite Hk3 by exact Hpost. rewrite Ho2. exact Hg.
Qed.

(** C1. Paper engine in realistic mode. Placement: with [book] the book
    [get_order_book] serves during the call, an order whose limit price
    is at least the book's best ask [a] is returned FILLED with
    [filled_qty = size] and [filled_avg_price = a], and the fill callback
    (when one is registered) receives [(side, a, size)]; an order priced
    below [a] (or facing no ask) is returned OPEN with no callback call.
    Either way the table holds the returned order. Re-check: for an OPEN
    order of the table, [check_pending_fills] fills it at the best ask
    [a] of the book it reads for that order, with a callback call
    [(side, a, size)], exactly when [a <= price]; otherwise the order is
    left as it was. The cache invariant [paper_ok] holds initially. *)
Theorem C1_paper_realistic_fills :
  (forall (m : Paper.PaperOrderManager) (s : OrderSide) (p sz : Q) (oid : string)
          (w : Paper.Tick) (rnd : Q),
     paper_ok m -> Paper.realistic_mode m = true ->
     let book := fst (Paper.get_order_book m s w) in
     let res := Paper.place_limit_buy m s p sz oid w rnd in
     dict_get oid (Paper.orders (snd res)) = Some (fst res) /\
     match best_ask book with
     | Some a =>
         (a <= p ->
            status (fst res) = FILLED /\ filled_qty (fst res) = sz /\
            filled_avg_price (fst res) = a /\
            Paper.fill_calls (snd res) =
              Paper.fill_calls m ++
                (if Paper.fill_callback_set m then [(side_value s, a, sz)] else [])) /\
         (p < a ->
            status (fst res) = OPEN /\ filled_qty (fst res) = 0 /\
            Paper.fill_calls (snd res) = Paper.fill_calls m)
     | None => status (fst res) = OPEN /\ Paper.fill_calls (snd res) = Paper.fill_calls m
     end) /\
  (forall (ws : nat -> Paper.Tick) (m : Paper.PaperOrderManager)
          (pre post : list Order) (o : Order),
     paper_ok m -> NoDup (map id (Paper.orders m)) ->
     Paper.orders m = pre ++ o :: post -> status o = OPEN ->
     let m_mid := snd (Paper.check_loop ws 0 pre m) in
     let book := fst (Paper.get_order_book m_mid (side o) (ws (length pre))) in
     let m_fin := snd (Paper.check_pending_fills ws m) in
     match best_ask book with
     | Some a =>
         if Qle_bool a (price o)
         then dict_get (id o) (Paper.orders m_fin) = Some (with_fill (size o) a o) /\
              (Paper.fill_callback_set m = true ->
               In (side_value (side o), a, size o) (Paper.fill_calls m_fin))
         else dict_get (id o) (Paper.orders m_fin) = Some o
     | None => dict_get (id o) (Paper.orders m_fin) = Some o
     end) /\
  (forall yes no prob, paper_ok (Paper.init yes no prob true)).
Proof.
  split; [|split].
  - intros m s p sz oid w rnd Hok Hreal.
    destruct (paper_place_limit_buy_realistic m s p sz oid w rnd Hok Hreal) as (H1 & _ & H2).
    split; assumption.
  - intros ws m pre post o Hok Hnd Hord Hst.
    exact (paper_check_pending_fills_order ws m pre post o Hok Hnd Hord Hst).
  - intros. apply paper_ok_init.
Qed.

(** A venue book with best ask 0.55 and one with best ask 0.45. *)
Definition resp_ask_055 : Paper.FetchResult :=
  Paper.Fetch_response 200
    (Paper.Payload_book [Paper.RawLevel_ok 0.50 20] [Paper.RawLevel_ok 0.55 30]).
Definition resp_ask_045 : Paper.FetchResult :=
  Paper.Fetch_response 200
    (Paper.Payload_book [Paper.RawLevel_ok 0.40 20] [Paper.RawLevel_ok 0.45 30]).

Definition paper_demo : Paper.PaperOrderManager :=
  Paper.set_fill_callback (Paper.init "tok_yes" "tok_no" 0.05 true).

Definition resting_order : Order :=
  mkOrder "paper_b" YES 0.50 10 OPEN 0 0 "tok_yes".

Lemma C1_paper_realistic_fills_witness :
  (paper_ok paper_demo /\ Paper.realistic_mode paper_demo = true /\
   let res := Paper.place_limit_buy paper_demo YES 0.60 10 "paper_a"
                (Paper.mkTick 10 resp_ask_055 resp_ask_055) 0 in
   status (fst res) = FILLED /\ filled_avg_price (fst res) = 0.55) /\
  (let m := Paper.set_orders paper_demo [resting_order] in
   let ws := fun _ : nat => Paper.mkTick 20 resp_ask_045 resp_ask_045 in
   paper_ok m /\ NoDup (map id (Paper.orders m)) /\
   Paper.orders m = [] ++ resting_order :: [] /\ status resting_order = OPEN /\
   dict_get "paper_b" (Paper.orders (snd (Paper.check_pending_fills ws m)))
     = Some (with_fill 10 0.45 resting_order)).
Proof.
  split.
  - assert (paper_ok paper_demo) as Hok by (split; simpl; discriminate).
    split; [exact Hok|split; [reflexivity|]].
    pose proof (proj1 C1_paper_realistic_fills paper_demo YES 0.60 10 "paper_a"
                  (Paper.mkTick 10 resp_ask_055 resp_ask_055) 0 Hok eq_refl) as H.
    cbv zeta in H. vm_compute in H. destruct H as [_ [H _]].
    vm_compute. destruct (H ltac:(discriminate)) as (H1 & _ & H3 & _).
    split; assumption.
  - assert (paper_ok (Paper.set_orders paper_demo [resting_order])) as Hok
      by (split; simpl; discriminate).
    split; [exact Hok|split; [repeat constructor; simpl; tauto|split; [reflexivity|split; [reflexivity|]]]].
    pose proof (proj1 (proj2 C1_paper_realistic_fills)
                  (fun _ => Paper.mkTick 20 resp_ask_045 resp_ask_045)
                  (Paper.set_orders paper_demo [resting_order]) [] [] resting_order
                  Hok ltac:(repeat constructor; simpl; tauto) eq_refl eq_refl) as H.
    cbv zeta in H. vm_compute in H. destruct H as [H _]. exact H.
Defined.

(** ** Live engine: fill notifications on refresh *)

Definition live_demo : Live.LiveOrderManager :=
  Live.set_fill_callback
    (Live.mkLive "tok_yes" "tok_no" [mkOrder "0xabc" YES 0.5 5 OPEN 0 0 "tok_yes"] false []).

(** The venue's answer for a fully matched order. *)
Definition filled_response : Live.GetOrderResult :=
  Live.GetOrder_dict [("status", Live.PyStr "filled"); ("filledSize", Live.PyNum 5);
                      ("avgFillPrice", Live.PyNum 0.5)].

(** C3 (failing input). An OPEN live order of 5 at 0.5 is reported
    filled by the venue: the first [refresh_order_status] moves it to
    FILLED and calls the callback once; a second refresh of the same,
    already FILLED order with the same answer calls the callback again
    for the same fill. *)
Theorem C3_refresh_renotifies_filled_order (py_float_str : string -> option Q) :
  let m1 := snd (Live.refresh_order_status py_float_str live_demo "0xabc" filled_response) in
  let m2 := snd (Live.refresh_order_status py_float_str m1 "0xabc" filled_response) in
  option_map status (dict_get "0xabc" (Live.orders m1)) = Some FILLED /\
  Live.fill_calls m1 = [("YES", 0.5, 5)] /\
  Live.fill_calls m2 = [("YES", 0.5, 5); ("YES", 0.5, 5)].
Proof. repeat split. Qed.

(** ** Market buys *)

(** C4 (amended). Paper engine: [market_buy] never fails; on a book that
    went through ingestion it returns an order FILLED at once with
    [filled_qty = size], at the best ask when there is one and at the
    sentinel 0.55 otherwise, and calls the callback (when registered).
    Live engine: [market_buy] raises [ValueError] when the book has no
    ask or a best ask of 0; otherwise it is exactly [place_limit_buy] at
    the best ask, whose result, when the placement does not raise, is an
    OPEN order with [filled_qty = 0]. *)
Theorem C4_market_buy_outcomes :
  (forall (m : Paper.PaperOrderManager) (s : OrderSide) (sz : Q) (oid : string)
          (w : Paper.Tick),
     paper_ok m ->
     let fp := match best_ask (fst (Paper.get_order_book m s w)) with
               | Some a => a | None => 0.55 end in
     let res := Paper.market_buy m s sz oid w in
     status (fst res) = FILLED /\ filled_qty (fst res) = sz /\
     filled_avg_price (fst res) = fp /\
     dict_get oid (Paper.orders (snd res)) = Some (fst res) /\
     Paper.fill_calls (snd res) =
       Paper.fill_calls m ++ (if Paper.fill_callback_set m then [(side_value s, fp, sz)] else [])) /\
  (forall (m : Live.LiveOrderManager) (s : OrderSide) (sz : Q) (bf : Live.BookFetch)
          (r : Live.PlaceResult) (fresh : string),
     py_truthy (best_ask (Live.get_order_book bf)) = false ->
     Live.market_buy m s sz bf r fresh = Live.Raises "ValueError") /\
  (forall (m : Live.LiveOrderManager) (s : OrderSide) (sz : Q) (bf : Live.BookFetch)
          (r : Live.PlaceResult) (fresh : string) (a : Q),
     best_ask (Live.get_order_book bf) = Some a -> py_truthy (Some a) = true ->
     Live.market_buy m s sz bf r fresh = Live.place_limit_buy m s a sz r fresh /\
     (forall o m', Live.market_buy m s sz bf r fresh = Live.Returns (o, m') ->
        status o = OPEN /\ filled_qty o = 0 /\ price o = a /\ size o = sz)).
Proof.
  split; [|split].
  - intros m s sz oid w Hok. cbv zeta. unfold Paper.market_buy.
    pose proof (get_order_book_ok m s w Hok) as [Hbook _].
    pose proof (get_order_book_frame m s w) as (_ & Hc & Hcb & _).
    destruct (Paper.get_order_book m s w) as [book m1]. simpl in *.
    assert ((match best_ask book with
             | Some a => if Qeq_bool a 0 then 0.55 else a | None => 0.55 end) =
            (match best_ask book with Some a => a | None => 0.55 end)) as Hfp.
    { destruct (best_ask book) as [a|] eqn:Ea; [|reflexivity].
      rewrite (Qeq_bool_pos_false a (paper_book_best_ask_pos book a Hbook Ea)). reflexivity. }
    rewrite Hfp. simpl. rewrite Hc, Hcb.
    repeat split.
    + apply (dict_get_set_same
               (mkOrder oid s (match best_ask book with Some a => a | None => 0.55 end) sz
                  FILLED sz (match best_ask book with Some a => a | None => 0.55 end)
                  (Paper.get_token_id m1 s))).
    + destruct (Paper.fill_callback_set m); [reflexivity|now rewrite app_nil_r].
  - intros m s sz bf r fresh H. unfold Live.market_buy.
    destruct (best_ask (Live.get_order_book bf)) as [a|]; [|reflexivity].
    simpl in H. apply negb_false_iff in H. rewrite H. reflexivity.
  - intros m s sz bf r fresh a Ha Ht. simpl in Ht. apply negb_true_iff in Ht.
    assert (Live.market_buy m s sz bf r fresh = Live.place_limit_buy m s a sz r fresh) as E.
    { unfold Live.market_buy. rewrite Ha, Ht. reflexivity. }
    split; [exact E|]. intros o m' Hr. rewrite E in Hr.
    unfold Live.place_limit_buy in Hr. destruct r; [|discriminate].
    injection Hr as <- _. repeat split.
Qed.

Definition book_bids_only : Paper.FetchResult :=
  Paper.Fetch_response 200 (Paper.Payload_book [Paper.RawLevel_ok 0.5 10] []).

Definition live_book_with_ask : Live.BookFetch :=
  Live.BookFetch_ok (Live.Raw_summary (Live.Levels_list [Live.Level_ok 0.40 10])
                                      (Live.Levels_list [Live.Level_ok 0.45 10])).

(** C4 counterexample. The paper engine, facing a book with no ask,
    does not fail: it fills at 0.55. The live engine, facing an ask of
    0.45, returns an OPEN order, not a FILLED one. *)
Lemma C4_market_buy_counterexample :
  (let res := Paper.market_buy (Paper.init "tok_yes" "tok_no" 0.05 true) YES 10 "paper_mkt_1"
                (Paper.mkTick 10 book_bids_only book_bids_only) in
   status (fst res) = FILLED /\ filled_avg_price (fst res) = 0.55) /\
  Live.market_buy (Live.mkLive "tok_yes" "tok_no" [] false []) YES 10 live_book_with_ask
    (Live.Place_ok (Live.IdResp_dict [("orderID", "0xdef")])) "uuid"
  = Live.Returns (mkOrder "0xdef" YES 0.45 10 OPEN 0 0 "tok_yes",
                  Live.mkLive "tok_yes" "tok_no" [mkOrder "0xdef" YES 0.45 10 OPEN 0 0 "tok_yes"]
                    false []).
Proof. split; [split|]; vm_compute; reflexivity. Qed.

(** ** Cancelling every order *)

Definition cancel_if_active (o : Order) : Order :=
  if is_active o then with_status CANCELLED o else o.

(** The effect on one order of the live sweep when the venue answers
    [venue_ok] to its cancel request. *)
Definition cancel_if_acked (venue_ok : string -> bool) (o : Order) : Order :=
  if is_active o && venue_ok (id o) then with_status CANCELLED o else o.

Definition count_active (t : list Order) : nat := length (filter is_active t).

Lemma paper_cancel_all_loop_eq (t : list Order) :
  Paper.cancel_all_loop t = (count_active t, map cancel_if_active t).
Proof.
  unfold count_active. induction t as [|o t IH]; simpl; [reflexivity|].
  rewrite IH. unfold cancel_if_active. destruct (is_active o); reflexivity.
Qed.

Lemma count_active_map_cancel (t : list Order) : count_active (map cancel_if_active t) = 0%nat.
Proof.
  unfold count_active. induction t as [|o t IH]; simpl; [reflexivity|].
  unfold cancel_if_active at 1. destruct (is_active o) eqn:E; simpl; [exact IH|].
  rewrite E. exact IH.
Qed.

Lemma map_cancel_no_active (t : list Order) :
  count_active t = 0%nat -> map cancel_if_active t = t.
Proof.
  unfold count_active. induction t as [|o t IH]; simpl; intros H; [reflexivity|].
  unfold cancel_if_active at 1. destruct (is_active o); simpl in H; [discriminate|].
  f_equal. apply IH, H.
Qed.

Lemma dict_update_middle (f : Order -> Order) (pre post : list Order) (o : Order) :
  NoDup (map id (pre ++ o :: post)) ->
  dict_update (id o) f (pre ++ o :: post) = pre ++ f o :: post.
Proof.
  induction pre as [|x pre IH]; simpl; intros Hnd.
  - now rewrite String.eqb_refl.
  - inversion Hnd as [|? ? Hnotin Hnd']; subst.
    destruct (String.eqb (id x) (id o)) eqn:E.
    + apply String.eqb_eq in E. exfalso. apply Hnotin. rewrite E.
      rewrite map_app. apply in_or_app. right. left. reflexivity.
    + f_equal. apply IH, Hnd'.
Qed.

Lemma live_set_orders_twice (m : Live.LiveOrderManager) (t t' : list Order) :
  Live.set_orders (Live.set_orders m t) t' = Live.set_orders m t'.
Proof. destruct m; reflexivity. Qed.

Lemma live_set_orders_self (m : Live.LiveOrderManager) :
  Live.set_orders m (Live.orders m) = m.
Proof. destruct m; reflexivity. Qed.

Lemma map_id_cancel_if_acked (ok : string -> bool) (t : list Order) :
  map id (map (cancel_if_acked ok) t) = map id t.
Proof.
  induction t as [|o t IH]; simpl; [reflexivity|].
  unfold cancel_if_acked at 1. destruct (is_active o && ok (id o)); simpl; now rewrite IH.
Qed.

(** The live sweep, with the part [pre] of the table already visited. *)
Lemma live_cancel_all_loop_eq (ok : string -> bool) (l pre : list Order)
    (m : Live.LiveOrderManager) :
  Live.orders m = pre ++ l -> NoDup (map id (pre ++ l)) ->
  Live.cancel_all_loop ok l m =
    (length (filter (fun o => is_active o && ok (id o)) l),
     Live.set_orders m (pre ++ map (cancel_if_acked ok) l)).
Proof.
  revert pre m. induction l as [|x l IH]; intros pre m Ho Hnd; simpl.
  - rewrite app_nil_r in *. rewrite <- Ho, live_set_orders_self. reflexivity.
  - rewrite Ho, (dict_get_middle pre l x Hnd).
    unfold cancel_if_acked at 1.
    destruct (is_active x) eqn:Ea; simpl.
    + unfold Live.cancel_order. destruct (ok (id x)) eqn:Eo.
      * rewrite Ho, (dict_update_middle _ pre l x Hnd).
        rewrite (IH (pre ++ [with_status CANCELLED x])
                    (Live.set_orders m (pre ++ with_status CANCELLED x :: l))).
        -- rewrite live_set_orders_twice, <- app_assoc. reflexivity.
        -- simpl. now rewrite <- app_assoc.
        -- rewrite <- app_assoc. simpl. rewrite !map_app in *. exact Hnd.
      * rewrite (IH (pre ++ [x]) m).
        -- now rewrite <- app_assoc.
        -- now rewrite <- app_assoc.
        -- now rewrite <- app_assoc.
    + rewrite (IH (pre ++ [x]) m).
      * now rewrite <- app_assoc.
      * now rewrite <- app_assoc.
      * now rewrite <- app_assoc.
Qed.

Lemma live_cancel_all_orders_eq (ok : string -> bool) (m : Live.LiveOrderManager) :
  NoDup (map id (Live.orders m)) ->
  Live.cancel_all_orders ok m =
    (length (filter (fun o => is_active o && ok (id o)) (Live.orders m)),
     Live.set_orders m (map (cancel_if_acked ok) (Live.orders m))).
Proof.
  intros Hnd. unfold Live.cancel_all_orders.
  apply (live_cancel_all_loop_eq ok (Live.orders m) [] m); [reflexivity | exact Hnd].
Qed.

Lemma paper_set_orders_self (m : Paper.PaperOrderManager) :
  Paper.set_orders m (Paper.orders m) = m.
Proof. destruct m; reflexivity. Qed.

Lemma acked_no_active (ok : string -> bool) (t : list Order) :
  count_active t = 0%nat ->
  filter (fun o => is_active o && ok (id o)) t = [] /\ map (cancel_if_acked ok) t = t.
Proof.
  unfold count_active. induction t as [|o t IH]; simpl; intros H; [split; reflexivity|].
  unfold cancel_if_acked at 1. destruct (is_active o); simpl in H; [discriminate|].
  simpl. destruct (IH H) as [H1 H2]. rewrite H1, H2. split; reflexivity.
Qed.

Lemma acked_all_ok (ok : string -> bool) (t : list Order) :
  (forall o, In o t -> is_active o = true -> ok (id o) = true) ->
  filter (fun o => is_active o && ok (id o)) t = filter is_active t /\
  map (cancel_if_acked ok) t = map cancel_if_active t.
Proof.
  induction t as [|o t IH]; simpl; intros H; [split; reflexivity|].
  destruct IH as [H1 H2]; [intros o' Hin; apply H; right; exact Hin|].
  unfold cancel_if_acked at 1, cancel_if_active at 1.
  destruct (is_active o) eqn:Ea; simpl.
  - rewrite (H o (or_introl eq_refl) Ea). simpl. rewrite H1, H2. split; reflexivity.
  - rewrite H1, H2. split; reflexivity.
Qed.

(** C6 (amended). Paper engine: [cancel_all_orders] moves exactly the
    active orders of the table to CANCELLED, leaves the others as they
    are and returns their number; a second call returns 0, and a call on
    a table without active orders returns 0 and changes nothing. Live
    engine (order ids distinct, as dict keys are): an active order is
    cancelled and counted only when the venue accepts its cancel request,
    so the result is the number of active orders whose cancel the venue
    accepted; a table without active orders gives 0 and no change; when
    the venue accepts every request the result is the number of active
    orders and a second call returns 0. *)
Theorem C6_cancel_all_orders :
  (forall m : Paper.PaperOrderManager,
     let r := Paper.cancel_all_orders m in
     fst r = count_active (Paper.orders m) /\
     Paper.orders (snd r) = map cancel_if_active (Paper.orders m) /\
     fst (Paper.cancel_all_orders (snd r)) = 0%nat /\
     (count_active (Paper.orders m) = 0%nat -> r = (0%nat, m))) /\
  (forall (venue_ok : string -> bool) (m : Live.LiveOrderManager),
     NoDup (map id (Live.orders m)) ->
     let r := Live.cancel_all_orders venue_ok m in
     fst r = length (filter (fun o => is_active o && venue_ok (id o)) (Live.orders m)) /\
     Live.orders (snd r) = map (cancel_if_acked venue_ok) (Live.orders m) /\
     (count_active (Live.orders m) = 0%nat -> r = (0%nat, m)) /\
     ((forall o, In o (Live.orders m) -> is_active o = true -> venue_ok (id o) = true) ->
        fst r = count_active (Live.orders m) /\
        forall venue_ok', fst (Live.cancel_all_orders venue_ok' (snd r)) = 0%nat)).
Proof.
  split.
  - intros m. cbv zeta. unfold Paper.cancel_all_orders.
    rewrite paper_cancel_all_loop_eq. simpl.
    rewrite paper_cancel_all_loop_eq. simpl.
    split; [reflexivity|]. split; [reflexivity|]. split.
    + apply count_active_map_cancel.
    + intros H. rewrite (map_cancel_no_active _ H), H, paper_set_orders_self. reflexivity.
  - intros ok m Hnd. cbv zeta. rewrite (live_cancel_all_orders_eq ok m Hnd). simpl.
    split; [reflexivity|]. split; [reflexivity|]. split.
    + intros H. destruct (acked_no_active ok _ H) as [H1 H2].
      rewrite H1, H2, live_set_orders_self. reflexivity.
    + intros Hall. destruct (acked_all_ok ok _ Hall) as [H1 H2].
      split; [rewrite H1; reflexivity|].
      intros ok'. rewrite H2.
      assert (Hnd' : NoDup (map id (Live.orders (Live.set_orders m (map cancel_if_active (Live.orders m)))))).
      { simpl. rewrite <- H2, map_id_cancel_if_acked. exact Hnd. }
      rewrite (live_cancel_all_orders_eq ok' _ Hnd'). simpl.
      destruct (acked_no_active ok' _ (count_active_map_cancel (Live.orders m))) as [H3 _].
      rewrite H3. reflexivity.
Qed.

Definition live_one_open : Live.LiveOrderManager :=
  Live.mkLive "tok_yes" "tok_no" [mkOrder "0xabc" YES 0.5 5 OPEN 0 0 "tok_yes"] false [].

(** C6 counterexample. One OPEN live order whose cancel request the venue
    refuses: [cancel_all_orders] returns 0, not 1, and the order stays
    OPEN. *)
Lemma C6_venue_refusal_counterexample :
  count_active (Live.orders live_one_open) = 1%nat /\
  Live.cancel_all_orders (fun _ => false) live_one_open = (0%nat, live_one_open).
Proof. split; reflexivity. Qed.

(** The amended statement at work: two live orders, one OPEN and one
    FILLED, ids distinct, the venue accepting the request. *)
Lemma C6_cancel_all_orders_witness :
  fst (Live.cancel_all_orders (fun _ => true)
         (Live.set_orders live_one_open
            [mkOrder "0xabc" YES 0.5 5 OPEN 0 0 "tok_yes";
             mkOrder "0xdef" NO 0.4 5 FILLED 5 0.4 "tok_no"])) = 1%nat /\
  fst (Live.cancel_all_orders (fun _ => true)
         (snd (Live.cancel_all_orders (fun _ => true)
            (Live.set_orders live_one_open
               [mkOrder "0xabc" YES 0.5 5 OPEN 0 0 "tok_yes";
                mkOrder "0xdef" NO 0.4 5 FILLED 5 0.4 "tok_no"])))) = 0%nat.
Proof.
  pose proof (proj2 C6_cancel_all_orders (fun _ => true)
     (Live.set_orders live_one_open
        [mkOrder "0xabc" YES 0.5 5 OPEN 0 0 "tok_yes";
         mkOrder "0xdef" NO 0.4 5 FILLED 5 0.4 "tok_no"])) as H.
  destruct H as (_ & _ & _ & H).
  - simpl. constructor; [simpl; intros [E|[]]; discriminate|].
    constructor; [intros []|constructor].
  - destruct H as [H1 H2]; [intros; reflexivity|].
    split; [rewrite H1; reflexivity|apply H2].
Defined.

(** ** Sizing a box attempt *)

(** The size the spec describes: target notional over the combined ask,
    capped by both top-of-book sizes. *)
Definition spec_box_quantity (usd p_up p_down s_up s_down : Q) : Q :=
  Qmin (Qmin (usd / (p_up + p_down)) s_up) s_down.

Definition top_book (p s : Q) : FastBoxArb.BookSummary :=
  FastBoxArb.mkSummary [FastBoxArb.Top_ok p s].

(** C7 (amended). When both books have a best ask, an attempt whose edge
    [1 - (p_up + p_down)] is below [min_edge] is skipped; otherwise the
    size is [q = min(usd / max(1e-9, p_up + p_down), s_up, s_down)], the
    attempt is skipped when [q <= 0] and both legs are submitted at size
    [q] otherwise. When the combined ask is at least [1e-9], [q] is the
    size [min(usd / (p_up + p_down), s_up, s_down)]. *)
Theorem C7_scan_sizing (params : FastBoxArb.FastArbParams)
    (up dn : FastBoxArb.BookSummary) (p_up s_up p_down s_down : Q) :
  FastBoxArb._best_ask up = Some (p_up, s_up) ->
  FastBoxArb._best_ask dn = Some (p_down, s_down) ->
  let q := Qmin (Qmin (FastBoxArb.usd_per_attempt params / Qmax 1e-9 (p_up + p_down)) s_up)
                s_down in
  (1 - (p_up + p_down) < FastBoxArb.min_edge params ->
     FastBoxArb.scan_iteration params [up; dn] = FastBoxArb.Skip) /\
  (FastBoxArb.min_edge params <= 1 - (p_up + p_down) ->
     FastBoxArb.scan_iteration params [up; dn] =
       if Qle_bool q 0 then FastBoxArb.Skip else FastBoxArb.Submit p_up p_down q) /\
  (1e-9 <= p_up + p_down ->
     q == spec_box_quantity (FastBoxArb.usd_per_attempt params) p_up p_down s_up s_down).
Proof.
  intros Hu Hd q. unfold FastBoxArb.scan_iteration. rewrite Hu, Hd.
  split; [|split].
  - intros H. apply Qltb_true in H. rewrite H. reflexivity.
  - intros H. apply Qltb_false in H. rewrite H. reflexivity.
  - intros H. unfold q, spec_box_quantity. rewrite (Q.max_r _ _ H). reflexivity.
Qed.

(** C7 counterexample. Two asks of [10^-10] each, with large sizes: the
    code divides by [max(1e-9, 2 * 10^-10) = 10^-9] and submits
    [5 * 10^9] shares, where the spec's formula gives [2.5 * 10^10]. *)
Lemma C7_tiny_asks_counterexample :
  match FastBoxArb.scan_iteration FastBoxArb.default_params
      [top_book (1 # 10000000000) 100000000000; top_book (1 # 10000000000) 100000000000] with
  | FastBoxArb.Submit _ _ q =>
      q == 5000000000 /\
      spec_box_quantity 5 (1 # 10000000000) (1 # 10000000000) 100000000000 100000000000
        == 25000000000
  | FastBoxArb.Skip => False
  end.
Proof. vm_compute. split; reflexivity. Qed.

(** The spec's example: asks 0.47 and 0.49 with sizes 10 and 8 and a
    target of 5 USD give a submission of [5 / 0.96 = 125/24] shares. *)
Lemma C7_scan_sizing_witness :
  FastBoxArb.scan_iteration FastBoxArb.default_params [top_book 0.47 10; top_book 0.49 8] =
    FastBoxArb.Submit 0.47 0.49
      (Qmin (Qmin (5.0 / Qmax 1e-9 (0.47 + 0.49)) 10) 8) /\
  Qmin (Qmin (5.0 / Qmax 1e-9 (0.47 + 0.49)) 10) 8 == 125 # 24.
Proof.
  destruct (C7_scan_sizing FastBoxArb.default_params (top_book 0.47 10) (top_book 0.49 8)
              0.47 10 0.49 8 eq_refl eq_refl) as (_ & H & H').
  split.
  - rewrite H; [reflexivity|vm_compute; discriminate].
  - rewrite H'; [vm_compute; reflexivity|vm_compute; discriminate].
Defined.

(** ** The ledger: saving and reloading a session *)

Lemma trade_of_to_dict (t : Ledger.Trade.TradeRecord) :
  Ledger.Trade.of_dict (Ledger.Trade.to_dict t) = Some t.
Proof. destruct t; reflexivity. Qed.

Lemma cycle_of_to_dict (c : Ledger.Cycle.CycleRecord) :
  Ledger.Cycle.of_dict (Ledger.Cycle.to_dict c) = Some c.
Proof. destruct c as [? ? ? ? [] [] [] [] [] ? ? ?]; reflexivity. Qed.

Lemma map_option_of_to_dict_trades (l : list Ledger.Trade.TradeRecord) :
  Ledger.map_option Ledger.Trade.of_dict (map Ledger.Trade.to_dict l) = Some l.
Proof.
  induction l as [|t l IH]; [reflexivity|].
  cbn [map Ledger.map_option]. now rewrite trade_of_to_dict, IH.
Qed.

Lemma map_option_of_to_dict_cycles (l : list Ledger.Cycle.CycleRecord) :
  Ledger.map_option Ledger.Cycle.of_dict (map Ledger.Cycle.to_dict l) = Some l.
Proof.
  induction l as [|c l IH]; [reflexivity|].
  cbn [map Ledger.map_option]. now rewrite cycle_of_to_dict, IH.
Qed.

Section LedgerRoundTrip.
Context {datetime : Type}.
Variable isoformat : datetime -> string.
Variable fromisoformat : string -> option datetime.
Variable total_seconds : datetime -> datetime -> Q.
Variable strftime_session : datetime -> string.

(** [get_stats] reads the trades, the closed cycles and the session start
    of the ledger, and nothing else of it. *)
Lemma get_stats_ext (a b : @Ledger.TradeLogger datetime) (now : datetime) :
  Ledger.trades a = Ledger.trades b -> Ledger.cycles a = Ledger.cycles b ->
  Ledger.session_start a = Ledger.session_start b ->
  Ledger.get_stats isoformat total_seconds a now = Ledger.get_stats isoformat total_seconds b now.
Proof. intros H1 H2 H3. unfold Ledger.get_stats. now rewrite H1, H2, H3. Qed.

(** C8 (amended). Saving a ledger at any moment and building a new
    [TradeLogger] on the saved file gives the same trades and closed
    cycles, field for field, and the same session start (a start whose
    [isoformat] is not empty and reads back through [fromisoformat]);
    hence [get_stats] of the two ledgers agrees at every clock reading
    [now]: all counters and amounts and [start_time] are equal, while
    [end_time] and [duration_hours] are taken from [now] at each call. *)
Theorem C8_ledger_round_trip (lg : @Ledger.TradeLogger datetime) (saved_at now' : datetime) :
  fromisoformat (isoformat (Ledger.session_start lg)) = Some (Ledger.session_start lg) ->
  isoformat (Ledger.session_start lg) <> "" ->
  let lg' := Ledger.init fromisoformat strftime_session (Some (Ledger.session_name lg)) now'
               (Ledger.log_file (Ledger._save isoformat total_seconds lg saved_at)) in
  Ledger.trades lg' = Ledger.trades lg /\ Ledger.cycles lg' = Ledger.cycles lg /\
  Ledger.session_start lg' = Ledger.session_start lg /\
  forall now, Ledger.get_stats isoformat total_seconds lg' now =
              Ledger.get_stats isoformat total_seconds lg now.
Proof.
  intros Hiso Hne lg'.
  assert (Ledger.trades lg' = Ledger.trades lg /\ Ledger.cycles lg' = Ledger.cycles lg /\
          Ledger.session_start lg' = Ledger.session_start lg) as (H1 & H2 & H3).
  { unfold lg', Ledger.init, Ledger._save, Ledger._load. simpl.
    rewrite map_option_of_to_dict_trades, map_option_of_to_dict_cycles. simpl.
    apply String.eqb_neq in Hne. rewrite Hne. simpl. rewrite Hiso.
    repeat split. }
  repeat split; try assumption.
  intros now. apply get_stats_ext; assumption.
Qed.
End LedgerRoundTrip.

(** A saved session with one trade and one closed cycle; clock readings
    are ISO strings read back as themselves. *)
Definition demo_trade : Ledger.Trade.TradeRecord :=
  Ledger.Trade.mkTrade "2026-10-18T09:01:00" "btc-updown-15m" "BTC" "UP" "BUY" 0.47 10 4.7
    "ENTERED".

Definition demo_cycle : Ledger.Cycle.CycleRecord :=
  Ledger.Cycle.mkCycle "BTC_090000" "btc-updown-15m" "BTC" "2026-10-18T09:00:00"
    (Some "2026-10-18T09:15:00") (Some 0.47) (Some 10) (Some 0.49) (Some 10) 9.6 0.4 "LOCKED".

Definition demo_ledger : @Ledger.TradeLogger string :=
  Ledger.mkLogger "demo" [demo_trade] [demo_cycle] None "2026-10-18T09:00:00" Ledger.NoFile.

Definition demo_seconds (a b : string) : Q := if String.eqb a b then 0 else 60.

Definition demo_reloaded (saved_at now' : string) : @Ledger.TradeLogger string :=
  Ledger.init Some (fun s => s) (Some "demo") now'
    (Ledger.log_file (Ledger._save (fun s => s) demo_seconds demo_ledger saved_at)).

Lemma C8_ledger_round_trip_witness :
  Ledger.trades (demo_reloaded "2026-10-18T09:30:00" "2026-10-18T10:00:00") = [demo_trade] /\
  Ledger.cycles (demo_reloaded "2026-10-18T09:30:00" "2026-10-18T10:00:00") = [demo_cycle].
Proof.
  destruct (C8_ledger_round_trip (fun s => s) Some demo_seconds (fun s => s) demo_ledger
              "2026-10-18T09:30:00" "2026-10-18T10:00:00" eq_refl ltac:(discriminate))
    as (H1 & H2 & _).
  split; [exact H1 | exact H2].
Defined.

(** C8 counterexample. The statistics saved with the session (taken at
    09:30) and those of the reloaded ledger (asked for at 10:00) differ:
    [end_time] is the clock reading of the call. *)
Lemma C8_stats_clock_counterexample :
  Ledger.get_stats (fun s => s) demo_seconds
      (demo_reloaded "2026-10-18T09:30:00" "2026-10-18T10:00:00") "2026-10-18T10:00:00"
  <> Ledger.get_stats (fun s => s) demo_seconds demo_ledger "2026-10-18T09:30:00".
Proof. intros H. apply (f_equal Ledger.Stats.end_time) in H. vm_compute in H. discriminate. Qed.

(** ** The ledger: statistics over closed cycles *)

(** [PerformanceStats] with the two length counters set to [a] and [b]. *)
Definition retag (a b : nat) (s : Ledger.Stats.PerformanceStats) : Ledger.Stats.PerformanceStats :=
  let '(Ledger.Stats.mkStats _ _ comp lck stp exp gp gl net wr avg st et dh) := s in
  Ledger.Stats.mkStats a b comp lck stp exp gp gl net wr avg st et dh.

(** [PerformanceStats] with one more expired cycle. *)
Definition bump_expired (s : Ledger.Stats.PerformanceStats) : Ledger.Stats.PerformanceStats :=
  let '(Ledger.Stats.mkStats ntr ncy comp lck stp exp gp gl net wr avg st et dh) := s in
  Ledger.Stats.mkStats ntr ncy comp lck stp (S exp) gp gl net wr avg st et dh.

Lemma fold_left_commute {A S : Type} (step : S -> A -> S) (g : S -> S) (l : list A) (s : S) :
  (forall s a, step (g s) a = g (step s a)) ->
  fold_left step l (g s) = g (fold_left step l s).
Proof.
  intros Hc. revert s. induction l as [|a l IH]; intros s; simpl; [reflexivity|].
  rewrite Hc. apply IH.
Qed.

Lemma stats_step_retag (a b : nat) (s : Ledger.Stats.PerformanceStats) (c : Ledger.Cycle.CycleRecord) :
  Ledger.stats_step (retag a b s) c = retag a b (Ledger.stats_step s c).
Proof.
  destruct s. unfold Ledger.stats_step. simpl.
  destruct (String.eqb (Ledger.Cycle.status c) "LOCKED");
    [destruct (Qltb 0 (Ledger.Cycle.locked_profit c)); reflexivity|].
  destruct (String.eqb (Ledger.Cycle.status c) "STOPPED");
    [destruct (Qltb 0 (Ledger.Cycle.total_cost c)); reflexivity|].
  destruct (String.eqb (Ledger.Cycle.status c) "EXPIRED"); reflexivity.
Qed.

Lemma stats_step_bump_expired (s : Ledger.Stats.PerformanceStats) (c : Ledger.Cycle.CycleRecord) :
  Ledger.stats_step (bump_expired s) c = bump_expired (Ledger.stats_step s c).
Proof.
  destruct s. unfold Ledger.stats_step. simpl.
  destruct (String.eqb (Ledger.Cycle.status c) "LOCKED");
    [destruct (Qltb 0 (Ledger.Cycle.locked_profit c)); reflexivity|].
  destruct (String.eqb (Ledger.Cycle.status c) "STOPPED");
    [destruct (Qltb 0 (Ledger.Cycle.total_cost c)); reflexivity|].
  destruct (String.eqb (Ledger.Cycle.status c) "EXPIRED"); reflexivity.
Qed.

Lemma stats_step_expired (s : Ledger.Stats.PerformanceStats) (c : Ledger.Cycle.CycleRecord) :
  Ledger.Cycle.status c = "EXPIRED" -> Ledger.stats_step s c = bump_expired s.
Proof. intros H. destruct s. unfold Ledger.stats_step. rewrite H. reflexivity. Qed.

Section LedgerStats.
Context {datetime : Type}.
Variable isoformat : datetime -> string.
Variable total_seconds : datetime -> datetime -> Q.

(** The loop of [get_stats] over the cycles of [lg]. *)
Definition stats_loop (lg : @Ledger.TradeLogger datetime) : Ledger.Stats.PerformanceStats :=
  fold_left Ledger.stats_step (Ledger.cycles lg)
    (Ledger.Stats.mkStats 0 0 0 0 0 0 0 0 0 0 0 "" "" 0).

Lemma get_stats_loop (lg : @Ledger.TradeLogger datetime) (now : datetime) :
  let s := stats_loop lg in
  let r := Ledger.get_stats isoformat total_seconds lg now in
  Ledger.Stats.total_trades r = length (Ledger.trades lg) /\
  Ledger.Stats.total_cycles r = length (Ledger.cycles lg) /\
  Ledger.Stats.completed_cycles r = Ledger.Stats.completed_cycles s /\
  Ledger.Stats.locked_cycles r = Ledger.Stats.locked_cycles s /\
  Ledger.Stats.stopped_cycles r = Ledger.Stats.stopped_cycles s /\
  Ledger.Stats.expired_cycles r = Ledger.Stats.expired_cycles s /\
  Ledger.Stats.gross_profit r = Ledger.Stats.gross_profit s /\
  Ledger.Stats.gross_loss r = Ledger.Stats.gross_loss s.
Proof.
  cbv zeta. unfold Ledger.get_stats, stats_loop.
  change (Ledger.Stats.mkStats (length (Ledger.trades lg)) (length (Ledger.cycles lg))
            0 0 0 0 0 0 0 0 0 "" "" 0)
    with (retag (length (Ledger.trades lg)) (length (Ledger.cycles lg))
            (Ledger.Stats.mkStats 0 0 0 0 0 0 0 0 0 0 0 "" "" 0)).
  rewrite (fold_left_commute _ _ _ _ (stats_step_retag _ _)).
  destruct (fold_left Ledger.stats_step (Ledger.cycles lg) _). simpl.
  repeat split.
Qed.

(** C9. With a cycle open, [complete_cycle "LOCKED" profit] followed by
    [get_stats] counts one more locked and one more completed cycle (and
    one more cycle in all), no other stopped or expired cycle, and adds
    [profit] to [gross_profit] when [profit > 0], and [|profit|] to
    [gross_loss] otherwise. *)
Theorem C9_complete_locked_cycle (lg : @Ledger.TradeLogger datetime)
    (c : Ledger.Cycle.CycleRecord) (profit : Q) (now t : datetime) :
  Ledger.current_cycle lg = Some c ->
  let s := Ledger.get_stats isoformat total_seconds lg t in
  let s' := Ledger.get_stats isoformat total_seconds
              (Ledger.complete_cycle isoformat total_seconds lg "LOCKED" profit now) t in
  Ledger.Stats.locked_cycles s' = S (Ledger.Stats.locked_cycles s) /\
  Ledger.Stats.completed_cycles s' = S (Ledger.Stats.completed_cycles s) /\
  Ledger.Stats.total_cycles s' = S (Ledger.Stats.total_cycles s) /\
  Ledger.Stats.stopped_cycles s' = Ledger.Stats.stopped_cycles s /\
  Ledger.Stats.expired_cycles s' = Ledger.Stats.expired_cycles s /\
  (0 < profit ->
     Ledger.Stats.gross_profit s' = Ledger.Stats.gross_profit s + profit /\
     Ledger.Stats.gross_loss s' = Ledger.Stats.gross_loss s) /\
  (profit <= 0 ->
     Ledger.Stats.gross_profit s' = Ledger.Stats.gross_profit s /\
     Ledger.Stats.gross_loss s' = Ledger.Stats.gross_loss s + Qabs profit).
Proof.
  intros Hc s s'. unfold s, s'. clear s s'.
  set (lg2 := Ledger.complete_cycle isoformat total_seconds lg "LOCKED" profit now).
  assert (Ecyc : Ledger.cycles lg2 =
                 Ledger.cycles lg ++ [Ledger.Cycle.close (isoformat now) "LOCKED" profit c]).
  { unfold lg2, Ledger.complete_cycle. rewrite Hc. reflexivity. }
  assert (Eloop : stats_loop lg2 =
                  Ledger.stats_step (stats_loop lg)
                    (Ledger.Cycle.close (isoformat now) "LOCKED" profit c)).
  { unfold stats_loop. rewrite Ecyc, fold_left_app. reflexivity. }
  destruct (get_stats_loop lg t) as (_ & T1 & C1 & L1 & S1 & X1 & P1 & G1).
  destruct (get_stats_loop lg2 t) as (_ & T2 & C2 & L2 & S2 & X2 & P2 & G2).
  rewrite T1, C1, L1, S1, X1, P1, G1, T2, C2, L2, S2, X2, P2, G2, Eloop, Ecyc.
  rewrite length_app. simpl. rewrite Nat.add_comm. simpl.
  destruct (stats_loop lg). unfold Ledger.stats_step. simpl.
  destruct (Qltb 0 profit) eqn:Ep.
  - apply Qltb_true in Ep.
    repeat split; exfalso; apply (Qlt_not_le 0 profit); assumption.
  - apply Qltb_false in Ep.
    repeat split; exfalso; apply (Qlt_not_le 0 profit); assumption.
Qed.
End LedgerStats.

Lemma fold_stats_expired (l1 l2 : list Ledger.Cycle.CycleRecord) (c : Ledger.Cycle.CycleRecord)
    (s : Ledger.Stats.PerformanceStats) :
  Ledger.Cycle.status c = "EXPIRED" ->
  fold_left Ledger.stats_step (l1 ++ c :: l2) s =
    bump_expired (fold_left Ledger.stats_step (l1 ++ l2) s).
Proof.
  intros Hc. rewrite !fold_left_app. simpl. rewrite stats_step_expired by exact Hc.
  apply fold_left_commute, stats_step_bump_expired.
Qed.

Section LedgerExpired.
Context {datetime : Type}.
Variable isoformat : datetime -> string.
Variable total_seconds : datetime -> datetime -> Q.

(** C10. Adding a cycle whose status is "EXPIRED" anywhere among the
    closed cycles, whatever its [total_cost] and [locked_profit], changes
    the statistics only by one more expired cycle and one more cycle in
    the [total_cycles] count of all closed cycles: [completed_cycles],
    [locked_cycles], [stopped_cycles], [gross_profit], [gross_loss],
    [net_pnl], [win_rate] and [avg_profit_per_cycle] stay the same. *)
Theorem C10_expired_cycle_stats (lg : @Ledger.TradeLogger datetime)
    (l1 l2 : list Ledger.Cycle.CycleRecord) (c : Ledger.Cycle.CycleRecord) (now : datetime) :
  Ledger.Cycle.status c = "EXPIRED" ->
  let s := Ledger.get_stats isoformat total_seconds (Ledger.set_cycles lg (l1 ++ l2)) now in
  let s' := Ledger.get_stats isoformat total_seconds (Ledger.set_cycles lg (l1 ++ c :: l2)) now in
  Ledger.Stats.expired_cycles s' = S (Ledger.Stats.expired_cycles s) /\
  Ledger.Stats.total_cycles s' = S (Ledger.Stats.total_cycles s) /\
  Ledger.Stats.total_trades s' = Ledger.Stats.total_trades s /\
  Ledger.Stats.completed_cycles s' = Ledger.Stats.completed_cycles s /\
  Ledger.Stats.locked_cycles s' = Ledger.Stats.locked_cycles s /\
  Ledger.Stats.stopped_cycles s' = Ledger.Stats.stopped_cycles s /\
  Ledger.Stats.gross_profit s' = Ledger.Stats.gross_profit s /\
  Ledger.Stats.gross_loss s' = Ledger.Stats.gross_loss s /\
  Ledger.Stats.net_pnl s' = Ledger.Stats.net_pnl s /\
  Ledger.Stats.win_rate s' = Ledger.Stats.win_rate s /\
  Ledger.Stats.avg_profit_per_cycle s' = Ledger.Stats.avg_profit_per_cycle s.
Proof.
  intros Hc. cbv zeta. unfold Ledger.get_stats. simpl.
  set (Z := Ledger.Stats.mkStats 0 0 0 0 0 0 0 0 0 0 0 "" "" 0).
  change (Ledger.Stats.mkStats (length (Ledger.trades lg)) (length (l1 ++ c :: l2))
            0 0 0 0 0 0 0 0 0 "" "" 0)
    with (retag (length (Ledger.trades lg)) (length (l1 ++ c :: l2)) Z).
  change (Ledger.Stats.mkStats (length (Ledger.trades lg)) (length (l1 ++ l2))
            0 0 0 0 0 0 0 0 0 "" "" 0)
    with (retag (length (Ledger.trades lg)) (length (l1 ++ l2)) Z).
  rewrite !(fold_left_commute _ _ _ _ (stats_step_retag _ _)).
  rewrite (fold_stats_expired l1 l2 c Z Hc).
  rewrite !length_app. simpl. rewrite Nat.add_succ_r.
  destruct (fold_left Ledger.stats_step (l1 ++ l2) Z). simpl.
  repeat split.
Qed.
End LedgerExpired.

Definition demo_open_cycle : Ledger.Cycle.CycleRecord :=
  Ledger.Cycle.mkCycle "BTC_091500" "btc-updown-15m" "BTC" "2026-10-18T09:15:00"
    None (Some 0.46) (Some 10) (Some 0.50) (Some 10) 9.6 0 "OPEN".

Definition demo_expired_cycle : Ledger.Cycle.CycleRecord :=
  Ledger.Cycle.mkCycle "BTC_093000" "btc-updown-15m" "BTC" "2026-10-18T09:30:00"
    (Some "2026-10-18T09:45:00") (Some 0.48) (Some 10) None None 4.8 0 "EXPIRED".

(** A LOCKED close with a profit of 0.4 on a ledger holding one LOCKED
    cycle already: two locked cycles, and a gross profit of 0.8. *)
Lemma C9_complete_locked_cycle_witness :
  let lg := Ledger.set_current demo_ledger (Some demo_open_cycle) in
  let s' := Ledger.get_stats (fun s => s) demo_seconds
              (Ledger.complete_cycle (fun s => s) demo_seconds lg "LOCKED" 0.4
                 "2026-10-18T09:30:00") "2026-10-18T09:31:00" in
  Ledger.Stats.locked_cycles s' = 2%nat /\ Ledger.Stats.gross_profit s' == 0.8.
Proof.
  destruct (C9_complete_locked_cycle (fun s => s) demo_seconds
              (Ledger.set_current demo_ledger (Some demo_open_cycle)) demo_open_cycle 0.4
              "2026-10-18T09:30:00" "2026-10-18T09:31:00" eq_refl)
    as (HL & _ & _ & _ & _ & HP & _).
  cbv zeta. rewrite HL. split; [reflexivity|].
  rewrite (proj1 (HP ltac:(vm_compute; reflexivity))). vm_compute. reflexivity.
Defined.

(** An EXPIRED cycle next to a LOCKED one: one expired, one completed. *)
Lemma C10_expired_cycle_stats_witness :
  let s' := Ledger.get_stats (fun s => s) demo_seconds
              (Ledger.set_cycles demo_ledger ([demo_cycle] ++ demo_expired_cycle :: []))
              "2026-10-18T10:00:00" in
  Ledger.Stats.expired_cycles s' = 1%nat /\ Ledger.Stats.completed_cycles s' = 1%nat.
Proof.
  destruct (C10_expired_cycle_stats (fun s => s) demo_seconds demo_ledger [demo_cycle] []
              demo_expired_cycle "2026-10-18T10:00:00" eq_refl)
    as (HX & _ & _ & HC & _).
  cbv zeta. rewrite HX, HC. split; reflexivity.
Defined.

(** * Further properties of the order managers *)

(** ** Spread and mid price *)

Lemma py_truthy_pos (q : Q) : 0 < q -> py_truthy (Some q) = true.
Proof. intros H. simpl. now rewrite (Qeq_bool_pos_false q H). Qed.

(** A book has a spread exactly when it has a mid price. A best bid or
    best ask of 0 counts as absent, so such a book has neither. When the
    best bid is at most the best ask, the mid price lies between them and
    the spread is their difference. On a book of the paper engine, both
    are defined exactly when both sides have a level. *)
Theorem book_spread_mid_price (b : OrderBook) :
  (spread b = None <-> mid_price b = None) /\
  (best_bid b = Some 0 \/ best_ask b = Some 0 -> spread b = None /\ mid_price b = None) /\
  (forall x y mid, best_bid b = Some x -> best_ask b = Some y -> mid_price b = Some mid ->
     x <= y -> spread b = Some (y - x) /\ x <= mid <= y) /\
  (paper_book_ok b -> (spread b = None <-> bids b = [] \/ asks b = [])).
Proof.
  unfold spread, mid_price.
  split; [|split; [|split]].
  - destruct (py_truthy (best_bid b) && py_truthy (best_ask b));
      [destruct (best_bid b), (best_ask b)|]; split; discriminate || reflexivity.
  - intros [H|H]; rewrite H; simpl;
      [split; reflexivity|rewrite andb_false_r; split; reflexivity].
  - intros x y mid Hx Hy. rewrite Hx, Hy.
    destruct (py_truthy (Some x) && py_truthy (Some y)); [|discriminate].
    intros Hm Hle. injection Hm as <-. split; [reflexivity|].
    split; [apply Qle_shift_div_l | apply Qle_shift_div_r]; lra.
  - intros (_ & _ & Hb & Ha). destruct b as [bs as_]. unfold best_bid, best_ask. simpl in *.
    destruct bs as [|[x xs] bs]; [split; [intros _; left; reflexivity|reflexivity]|].
    destruct as_ as [|[y ys] as_]; [split; [intros _; right; reflexivity|rewrite andb_false_r; reflexivity]|].
    inversion Hb as [|? ? [Hx _] _]; inversion Ha as [|? ? [Hy _] _]; simpl in *.
    rewrite (Qeq_bool_pos_false x Hx), (Qeq_bool_pos_false y Hy). simpl.
    split; [discriminate|intros [Hn|Hn]; discriminate].
Qed.

(** ** Open orders *)

Lemma side_eqb_eq (a b : OrderSide) : side_eqb a b = true <-> a = b.
Proof. destruct a, b; simpl; split; congruence. Qed.

(** [get_open_orders] lists exactly the active orders of the table (of the
    requested side, if any). After the paper engine's [cancel_all_orders]
    it is empty for every side. *)
Theorem get_open_orders_members (t : list Order) (s : option OrderSide) (o : Order) :
  (In o (get_open_orders t s) <->
     In o t /\ is_active o = true /\ match s with Some sd => side o = sd | None => True end) /\
  (forall m : Paper.PaperOrderManager,
     get_open_orders (Paper.orders (snd (Paper.cancel_all_orders m))) s = []).
Proof.
  split.
  - unfold get_open_orders. destruct s as [sd|].
    + rewrite filter_In, filter_In, side_eqb_eq. tauto.
    + rewrite filter_In. tauto.
  - intros m. unfold Paper.cancel_all_orders. rewrite paper_cancel_all_loop_eq. simpl.
    pose proof (count_active_map_cancel (Paper.orders m)) as H. unfold count_active in H.
    apply length_zero_iff_nil in H. unfold get_open_orders. rewrite H.
    destruct s; reflexivity.
Qed.

(** ** Paper engine: cancelling and filling one order *)

Lemma paper_set_orders_orders (m : Paper.PaperOrderManager) (t : list Order) :
  Paper.orders (Paper.set_orders m t) = t.
Proof. reflexivity. Qed.

(** The paper [cancel_order] succeeds exactly when the order is in the
    table and active. It then moves that order, and only that order, to
    CANCELLED, and a second cancel of it returns false. A refused cancel
    changes nothing. *)
Theorem paper_cancel_order_spec (m : Paper.PaperOrderManager) (oid : string) :
  let r := Paper.cancel_order m oid in
  (fst r = true <-> exists o, dict_get oid (Paper.orders m) = Some o /\ is_active o = true) /\
  (fst r = true ->
     dict_get oid (Paper.orders (snd r)) =
       option_map (with_status CANCELLED) (dict_get oid (Paper.orders m)) /\
     (forall k, k <> oid -> dict_get k (Paper.orders (snd r)) = dict_get k (Paper.orders m)) /\
     fst (Paper.cancel_order (snd r) oid) = false) /\
  (fst r = false -> snd r = m).
Proof.
  cbv zeta.
  destruct (dict_get oid (Paper.orders m)) as [o|] eqn:E.
  - destruct (is_active o) eqn:Ea.
    + assert (R : Paper.cancel_order m oid =
                  (true, Paper.set_orders m
                           (dict_update oid (with_status CANCELLED) (Paper.orders m)))).
      { unfold Paper.cancel_order. rewrite E, Ea. reflexivity. }
      rewrite R. simpl.
      split; [split; [intros _; exists o; split; [reflexivity|exact Ea]|reflexivity]|].
      split; [|discriminate].
      intros _. split; [|split].
      * rewrite dict_get_update_same, E by apply with_status_id. reflexivity.
      * intros k Hk. apply dict_get_update_other; [apply with_status_id|exact Hk].
      * unfold Paper.cancel_order. simpl.
        rewrite dict_get_update_same, E by apply with_status_id. reflexivity.
    + assert (R : Paper.cancel_order m oid = (false, m)).
      { unfold Paper.cancel_order. rewrite E, Ea. reflexivity. }
      rewrite R. simpl.
      split; [split; [discriminate|intros (o' & H1 & H2); congruence]|].
      split; [discriminate|reflexivity].
  - assert (R : Paper.cancel_order m oid = (false, m)).
    { unfold Paper.cancel_order. rewrite E. reflexivity. }
    rewrite R. simpl.
    split; [split; [discriminate|intros (o' & H1 & _); discriminate]|].
    split; [discriminate|reflexivity].
Qed.

(** [simulate_fill] fills an order at most once: it returns false and
    changes nothing unless the order is in the table and active; then it
    fills the whole size at the given price (at the order's own limit
    price without one), calls the callback once, and a later
    [simulate_fill] of the same order returns false. *)
Theorem paper_simulate_fill_once (m : Paper.PaperOrderManager) (oid : string)
    (fp : option Q) (w : Paper.Tick) :
  let r := Paper.simulate_fill m oid fp w in
  (fst r = true <-> exists o, dict_get oid (Paper.orders m) = Some o /\ is_active o = true) /\
  (fst r = false -> snd r = m) /\
  (forall o, dict_get oid (Paper.orders m) = Some o -> is_active o = true ->
     let p := match fp with Some p => p | None => price o end in
     dict_get oid (Paper.orders (snd r)) = Some (with_fill (size o) p o) /\
     Paper.fill_calls (snd r) =
       Paper.fill_calls m ++
         (if Paper.fill_callback_set m then [(side_value (side o), p, size o)] else []) /\
     forall fp' w', fst (Paper.simulate_fill (snd r) oid fp' w') = false).
Proof.
  cbv zeta.
  destruct (dict_get oid (Paper.orders m)) as [o|] eqn:E.
  - destruct (is_active o) eqn:Ea.
    + assert (Hpost : forall m1 p, Paper.orders m1 = Paper.orders m ->
                Paper.fill_callback_set m1 = Paper.fill_callback_set m ->
                Paper.fill_calls m1 = Paper.fill_calls m ->
                let m3 := Paper._notify_fill
                            (Paper.set_orders m1
                               (dict_update oid (with_fill (size o) p) (Paper.orders m1)))
                            (side_value (side o)) p (size o) in
                dict_get oid (Paper.orders m3) = Some (with_fill (size o) p o) /\
                Paper.fill_calls m3 = Paper.fill_calls m ++
                  (if Paper.fill_callback_set m then [(side_value (side o), p, size o)] else []) /\
                forall fp' w', fst (Paper.simulate_fill m3 oid fp' w') = false).
      { intros m1 p Ho Hcb Hc. cbv zeta.
        assert (Hg : dict_get oid (Paper.orders
                  (Paper._notify_fill (Paper.set_orders m1
                     (dict_update oid (with_fill (size o) p) (Paper.orders m1)))
                     (side_value (side o)) p (size o))) = Some (with_fill (size o) p o)).
        { simpl. rewrite dict_get_update_same, Ho, E by apply with_fill_id. reflexivity. }
        split; [exact Hg|split].
        - simpl. rewrite Hcb, Hc. destruct (Paper.fill_callback_set m); [reflexivity|now rewrite app_nil_r].
        - intros fp' w'. unfold Paper.simulate_fill. rewrite Hg. reflexivity. }
      set (m1 := match fp with Some _ => m | None => snd (Paper.get_order_book m (side o) w) end).
      set (p := match fp with Some p => p | None => price o end).
      assert (R : Paper.simulate_fill m oid fp w =
                  (true, Paper._notify_fill
                           (Paper.set_orders m1
                              (dict_update oid (with_fill (size o) p) (Paper.orders m1)))
                           (side_value (side o)) p (size o))).
      { unfold Paper.simulate_fill. rewrite E, Ea. unfold m1, p. destruct fp; reflexivity. }
      rewrite R. simpl.
      split; [split; [intros _; exists o; split; [reflexivity|exact Ea]|reflexivity]|].
      split; [discriminate|].
      intros o' Ho' _. injection Ho' as <-.
      pose proof (get_order_book_frame m (side o) w) as (Ho & Hc & Hcb & _).
      apply Hpost; unfold m1; destruct fp; assumption || reflexivity.
    + assert (R : Paper.simulate_fill m oid fp w = (false, m)).
      { unfold Paper.simulate_fill. rewrite E, Ea. reflexivity. }
      rewrite R. simpl.
      split; [split; [discriminate|intros (o' & H1 & H2); congruence]|].
      split; [reflexivity|]. intros o' Ho' Ha'. congruence.
  - assert (R : Paper.simulate_fill m oid fp w = (false, m)).
    { unfold Paper.simulate_fill. rewrite E. reflexivity. }
    rewrite R. simpl.
    split; [split; [discriminate|intros (o' & H1 & _); discriminate]|].
    split; [reflexivity|]. intros o' Ho'. discriminate.
Qed.

(** In random mode, a delayed fill scheduled for an order that is
    cancelled before the delay elapses does nothing: no fill, no
    callback. *)
Theorem paper_delayed_fill_after_cancel (m : Paper.PaperOrderManager) (oid : string)
    (w : Paper.Tick) :
  Paper._delayed_fill (snd (Paper.cancel_order m oid)) oid w = snd (Paper.cancel_order m oid).
Proof.
  unfold Paper._delayed_fill, Paper.cancel_order.
  destruct (dict_get oid (Paper.orders m)) as [o|] eqn:E.
  - destruct (is_active o) eqn:Ea; simpl.
    + unfold Paper.simulate_fill. simpl.
      rewrite dict_get_update_same, E by apply with_status_id. reflexivity.
    + unfold Paper.simulate_fill. rewrite E, Ea. reflexivity.
  - simpl. unfold Paper.simulate_fill. rewrite E. reflexivity.
Qed.

(** ** Paper engine: the book cache *)

(** Once the cache is older than its time-to-live, [get_order_book]
    fetches both books, stores them with the current time and returns the
    fetched book of the requested side; the order table is untouched.
    Every call made within the time-to-live after that refresh, for
    either side, returns the stored book of that side without fetching,
    whatever the venue would answer then. *)
Theorem paper_order_book_cache (m : Paper.PaperOrderManager) (s s' : OrderSide)
    (w w' : Paper.Tick) :
  Paper.cache_ttl m < Paper.clock w - Paper.cache_time m ->
  let r := Paper.get_order_book m s w in
  let fetched := fun sd => Paper._fetch_live_order_book
                   (match sd with YES => Paper.resp_yes w | NO => Paper.resp_no w end) in
  fst r = fetched s /\
  Paper.cached_yes (snd r) = Some (fetched YES) /\
  Paper.cached_no (snd r) = Some (fetched NO) /\
  Paper.cache_time (snd r) = Paper.clock w /\
  Paper.orders (snd r) = Paper.orders m /\
  (Paper.clock w' - Paper.clock w <= Paper.cache_ttl m ->
     Paper.get_order_book (snd r) s' w' = (fetched s', snd r)).
Proof.
  intros H. cbv zeta.
  set (yb := Paper._fetch_live_order_book (Paper.resp_yes w)).
  set (nb := Paper._fetch_live_order_book (Paper.resp_no w)).
  assert (R : Paper.get_order_book m s w =
              (Paper.cached_book (Paper.set_cache m yb nb (Paper.clock w)) s,
               Paper.set_cache m yb nb (Paper.clock w))).
  { unfold Paper.get_order_book. rewrite (proj2 (Qltb_true _ _) H). reflexivity. }
  rewrite R. cbn [fst snd].
  split; [destruct s; reflexivity|].
  split; [reflexivity|split; [reflexivity|split; [reflexivity|split; [reflexivity|]]]].
  intros H'. unfold Paper.get_order_book.
  cbn [Paper.cache_ttl Paper.cache_time Paper.set_cache].
  rewrite (proj2 (Qltb_false _ _) H'). destruct s'; reflexivity.
Qed.

(** A refresh at time 1 stores both books; a read of the NO side at time
    1.3 returns the stored book although the venue now quotes 0.45. *)
Lemma paper_order_book_cache_witness :
  Paper.get_order_book
    (snd (Paper.get_order_book (Paper.init "tok_yes" "tok_no" 0.05 true) YES
            (Paper.mkTick 1 resp_ask_055 resp_ask_055)))
    NO (Paper.mkTick 1.3 resp_ask_045 resp_ask_045) =
  (Paper._fetch_live_order_book resp_ask_055,
   snd (Paper.get_order_book (Paper.init "tok_yes" "tok_no" 0.05 true) YES
          (Paper.mkTick 1 resp_ask_055 resp_ask_055))).
Proof.
  pose proof (paper_order_book_cache (Paper.init "tok_yes" "tok_no" 0.05 true) YES NO
                (Paper.mkTick 1 resp_ask_055 resp_ask_055)
                (Paper.mkTick 1.3 resp_ask_045 resp_ask_045)
                ltac:(vm_compute; reflexivity)) as H.
  cbv beta zeta in H. destruct H as (_ & _ & _ & _ & _ & H).
  apply H. vm_compute. discriminate.
Defined.

(** ** Paper engine: accounting of [check_pending_fills] *)

Lemma status_eqb_eq (a b : OrderStatus) : status_eqb a b = true <-> a = b.
Proof. destruct a, b; simpl; split; congruence. Qed.

Lemma check_loop_accounting (ws : nat -> Paper.Tick) (l : list Order) :
  forall (i : nat) (m : Paper.PaperOrderManager),
  let r := Paper.check_loop ws i l m in
  Paper.fill_callback_set (snd r) = Paper.fill_callback_set m /\
  length (Paper.fill_calls (snd r)) =
    (length (Paper.fill_calls m) + if Paper.fill_callback_set m then fst r else 0)%nat /\
  (fst r <= length l)%nat /\
  (forall k o, dict_get k (Paper.orders m) = Some o -> status o <> OPEN ->
     dict_get k (Paper.orders (snd r)) = Some o).
Proof.
  induction l as [|x l IH]; intros i m; simpl.
  - split; [reflexivity|split; [destruct (Paper.fill_callback_set m); lia|split; [lia|auto]]].
  - set (cur := match dict_get (id x) (Paper.orders m) with Some c => c | None => x end).
    assert (Hcur : forall o', dict_get (id cur) (Paper.orders m) = Some o' -> o' = cur).
    { unfold cur. destruct (dict_get (id x) (Paper.orders m)) as [c|] eqn:E; intros o'.
      - rewrite (dict_get_id _ _ _ E), E. congruence.
      - rewrite E. discriminate. }
    assert (Hskip : forall j m0, Paper.orders m0 = Paper.orders m ->
              Paper.fill_callback_set m0 = Paper.fill_callback_set m ->
              Paper.fill_calls m0 = Paper.fill_calls m ->
              let r := Paper.check_loop ws j l m0 in
              Paper.fill_callback_set (snd r) = Paper.fill_callback_set m /\
              length (Paper.fill_calls (snd r)) =
                (length (Paper.fill_calls m) + if Paper.fill_callback_set m then fst r else 0)%nat /\
              (fst r <= S (length l))%nat /\
              (forall k o, dict_get k (Paper.orders m) = Some o -> status o <> OPEN ->
                 dict_get k (Paper.orders (snd r)) = Some o)).
    { intros j m0 Ho Hcb Hc. destruct (IH j m0) as (H1 & H2 & H3 & H4).
      split; [congruence|split; [rewrite H2, Hc, Hcb; reflexivity|split; [lia|]]].
      intros k o Hk Hs. apply H4; [rewrite Ho; exact Hk|exact Hs]. }
    destruct (negb (status_eqb (status cur) OPEN)) eqn:Hst.
    + apply Hskip; reflexivity.
    + apply negb_false_iff, status_eqb_eq in Hst.
      pose proof (get_order_book_frame m (side cur) (ws i)) as (Ho & Hc & Hcb & _).
      destruct (Paper.get_order_book m (side cur) (ws i)) as [book m1]; simpl in Ho, Hc, Hcb.
      destruct (best_ask book) as [a|];
        [destruct (negb (Qeq_bool a 0) && Qle_bool a (price cur))|];
        [|apply Hskip; assumption..].
      assert (Hcb3 : Paper.fill_callback_set
                       (Paper._notify_fill
                          (Paper.set_orders m1
                             (dict_update (id cur) (with_fill (size cur) a) (Paper.orders m1)))
                          (side_value (side cur)) a (size cur)) = Paper.fill_callback_set m)
        by exact Hcb.
      assert (Hc3 : length (Paper.fill_calls
                       (Paper._notify_fill
                          (Paper.set_orders m1
                             (dict_update (id cur) (with_fill (size cur) a) (Paper.orders m1)))
                          (side_value (side cur)) a (size cur))) =
                    (length (Paper.fill_calls m) +
                       if Paper.fill_callback_set m then 1 else 0)%nat).
      { simpl. rewrite Hcb, Hc. destruct (Paper.fill_callback_set m);
          [rewrite length_app; reflexivity|lia]. }
      assert (Ho3 : Paper.orders
                      (Paper._notify_fill
                         (Paper.set_orders m1
                            (dict_update (id cur) (with_fill (size cur) a) (Paper.orders m1)))
                         (side_value (side cur)) a (size cur)) =
                    dict_update (id cur) (with_fill (size cur) a) (Paper.orders m))
        by (simpl; rewrite Ho; reflexivity).
      destruct (IH (S i) (Paper._notify_fill
                         (Paper.set_orders m1
                            (dict_update (id cur) (with_fill (size cur) a) (Paper.orders m1)))
                         (side_value (side cur)) a (size cur))) as (H1 & H2 & H3 & H4).
      destruct (Paper.check_loop ws (S i) l _) as [n m4]. cbn [fst snd] in H1, H2, H3, H4 |- *.
      split; [rewrite H1; exact Hcb3|split; [|split; [lia|]]].
      * rewrite H2, Hc3, Hcb3. destruct (Paper.fill_callback_set m); lia.
      * intros k o Hk Hs. apply H4; [|exact Hs]. rewrite Ho3.
        destruct (String.eqb k (id cur)) eqn:Ek.
        -- apply String.eqb_eq in Ek. subst k. exfalso. apply Hs.
           rewrite (Hcur o Hk). exact Hst.
        -- apply String.eqb_neq in Ek.
           rewrite dict_get_update_other; [exact Hk|apply with_fill_id|exact Ek].
Qed.

(** [check_pending_fills] returns the number of fills it made, never more
    than the number of orders in the table. With a callback registered,
    the sweep adds exactly that many callback calls; without one it adds
    none. An order that is not OPEN when the sweep starts (FILLED,
    CANCELLED, PARTIALLY_FILLED, ...) keeps its entry unchanged. *)
Theorem paper_check_pending_fills_accounting (ws : nat -> Paper.Tick)
    (m : Paper.PaperOrderManager) :
  let r := Paper.check_pending_fills ws m in
  (fst r <= length (Paper.orders m))%nat /\
  length (Paper.fill_calls (snd r)) =
    (length (Paper.fill_calls m) + if Paper.fill_callback_set m then fst r else 0)%nat /\
  (forall k o, dict_get k (Paper.orders m) = Some o -> status o <> OPEN ->
     dict_get k (Paper.orders (snd r)) = Some o).
Proof.
  cbv zeta. unfold Paper.check_pending_fills.
  destruct (check_loop_accounting ws (Paper.orders m) 0 m) as (_ & H2 & H3 & H4).
  split; [exact H3|split; [exact H2|exact H4]].
Qed.

(** ** Live engine: placing, cancelling, refreshing and polling *)

Lemma dict_get_set_other (o : Order) (t : list Order) (k : string) :
  k <> id o -> dict_get k (dict_set o t) = dict_get k t.
Proof.
  intros Hne. induction t as [|o' t IH]; simpl.
  - destruct (String.eqb (id o) k) eqn:E; [apply String.eqb_eq in E; congruence|reflexivity].
  - destruct (String.eqb (id o') (id o)) eqn:E; simpl.
    + apply String.eqb_eq in E. rewrite E.
      destruct (String.eqb (id o) k) eqn:E1; [apply String.eqb_eq in E1; congruence|reflexivity].
    + destruct (String.eqb (id o') k); [reflexivity|exact IH].
Qed.

Lemma dict_set_length (o : Order) (t : list Order) :
  length (dict_set o t) =
    if existsb (fun o' => String.eqb (id o') (id o)) t then length t else S (length t).
Proof.
  induction t as [|o' t IH]; simpl; [reflexivity|].
  destruct (String.eqb (id o') (id o)); simpl; [reflexivity|].
  rewrite IH. destruct (existsb _ t); reflexivity.
Qed.

(** The live [place_limit_buy], when the venue accepts the order, stores
    the order it returns under the id the venue reported (the first
    non-empty of [orderID], [orderId], [order_id], [id]), or under the
    fresh UUID when that id is empty. The order is OPEN with nothing
    filled, at the requested side, price and size, on the side's token.
    The other entries are unchanged, an id already in the table is
    overwritten rather than added twice, and the callback is not
    called. *)
Theorem live_place_limit_buy_spec (m : Live.LiveOrderManager) (s : OrderSide) (p sz : Q)
    (resp : Live.IdResponse) (fresh : string) :
  exists o m',
    Live.place_limit_buy m s p sz (Live.Place_ok resp) fresh = Live.Returns (o, m') /\
    id o = (if String.eqb (Live._extract_order_id resp) "" then fresh
            else Live._extract_order_id resp) /\
    side o = s /\ price o = p /\ size o = sz /\ status o = OPEN /\ filled_qty o = 0 /\
    token_id o = Live.get_token_id m s /\
    dict_get (id o) (Live.orders m') = Some o /\
    (forall k, k <> id o -> dict_get k (Live.orders m') = dict_get k (Live.orders m)) /\
    length (Live.orders m') =
      (if existsb (fun o' => String.eqb (id o') (id o)) (Live.orders m)
       then length (Live.orders m) else S (length (Live.orders m))) /\
    Live.fill_calls m' = Live.fill_calls m.
Proof.
  eexists. eexists. split; [reflexivity|].
  do 7 (split; [reflexivity|]).
  split; [apply dict_get_set_same|].
  split; [intros k Hk; apply dict_get_set_other, Hk|].
  split; [apply dict_set_length|reflexivity].
Qed.

Lemma dict_update_absent (k : string) (f : Order -> Order) (t : list Order) :
  dict_get k t = None -> dict_update k f t = t.
Proof.
  induction t as [|o t IH]; simpl; [reflexivity|].
  destruct (String.eqb (id o) k); [discriminate|].
  intros H. rewrite (IH H). reflexivity.
Qed.

(** The live [cancel_order] reports success exactly when the venue
    accepts the request. It then marks the stored order CANCELLED
    whatever its status, a FILLED order included; an id the table does
    not hold is still reported cancelled, with the table unchanged. A
    refused request changes nothing. The callback is never called. *)
Theorem live_cancel_order_spec (m : Live.LiveOrderManager) (oid : string) :
  Live.cancel_order m oid false = (false, m) /\
  let r := Live.cancel_order m oid true in
  fst r = true /\
  dict_get oid (Live.orders (snd r)) =
    option_map (with_status CANCELLED) (dict_get oid (Live.orders m)) /\
  (forall k, k <> oid -> dict_get k (Live.orders (snd r)) = dict_get k (Live.orders m)) /\
  (dict_get oid (Live.orders m) = None -> Live.orders (snd r) = Live.orders m) /\
  Live.fill_calls (snd r) = Live.fill_calls m.
Proof.
  split; [reflexivity|]. cbv zeta. simpl.
  split; [reflexivity|split; [|split; [|split; [|reflexivity]]]].
  - apply dict_get_update_same, with_status_id.
  - intros k Hk. apply dict_get_update_other; [apply with_status_id|exact Hk].
  - apply dict_update_absent.
Qed.

Lemma live_to_levels_in (l : list Live.RawLevel) (p s : Q) :
  In (p, s) (fold_right (fun lvl out =>
               match lvl with Live.Level_ok p s => (p, s) :: out | Live.Level_skip => out end)
             [] l) <-> In (Live.Level_ok p s) l.
Proof.
  induction l as [|lvl l IH]; simpl; [tauto|].
  destruct lvl as [p' s'|]; simpl; rewrite IH.
  - split; intros [H|H]; auto; left; congruence.
  - split; [intros H; right; exact H|intros [H|H]; [discriminate|exact H]].
Qed.

(** The live normalizer keeps every level it can convert, whatever its
    price and size: a level at price 0 or below, or of size 0, is kept
    (the paper engine's fetch drops them). The bids come out in
    non-increasing and the asks in non-decreasing price order. *)
Theorem live_normalize_keeps_levels (lb la : list Live.RawLevel) :
  exists book,
    Live._normalize_order_book_summary
      (Live.Raw_summary (Live.Levels_list lb) (Live.Levels_list la)) = Some book /\
    (forall p s, In (p, s) (bids book) <-> In (Live.Level_ok p s) lb) /\
    (forall p s, In (p, s) (asks book) <-> In (Live.Level_ok p s) la) /\
    Sorted desc_le (bids book) /\ Sorted asc_le (asks book).
Proof.
  eexists. split; [reflexivity|]. simpl.
  split; [|split; [|split; [apply sort_desc_sorted|apply sort_asc_sorted]]];
    intros p s; rewrite <- live_to_levels_in; split; apply Permutation_in;
    (apply sort_desc_perm || apply sort_asc_perm ||
     (apply Permutation_sym; (apply sort_desc_perm || apply sort_asc_perm))).
Qed.

Lemma dict_get_update_const_same (k : string) (o2 : Order) (t : list Order) :
  id o2 = k ->
  dict_get k (dict_update k (fun _ => o2) t) = option_map (fun _ => o2) (dict_get k t).
Proof.
  intros Hid. induction t as [|o t IH]; simpl; [reflexivity|].
  destruct (String.eqb (id o) k) eqn:E; simpl.
  - rewrite Hid, String.eqb_refl. reflexivity.
  - rewrite E. exact IH.
Qed.

Lemma dict_get_update_const_other (k k' : string) (o2 : Order) (t : list Order) :
  id o2 = k -> k' <> k ->
  dict_get k' (dict_update k (fun _ => o2) t) = dict_get k' t.
Proof.
  intros Hid Hne. induction t as [|o t IH]; simpl; [reflexivity|].
  destruct (String.eqb (id o) k) eqn:E; simpl.
  - apply String.eqb_eq in E. rewrite Hid, E.
    destruct (String.eqb k k') eqn:E2; [apply String.eqb_eq in E2; congruence|reflexivity].
  - rewrite IH. reflexivity.
Qed.

Lemma mapped_status_cases (v : Live.PyVal) (old : OrderStatus) :
  Live.mapped_status v old = OPEN \/ Live.mapped_status v old = FILLED \/
  Live.mapped_status v old = CANCELLED \/ Live.mapped_status v old = old.
Proof.
  destruct v as [|s|q]; simpl; auto.
  destruct (String.eqb s "open"); [auto|].
  destruct (String.eqb s "filled"); [auto|].
  destruct (String.eqb s "cancelled"); auto.
Qed.

(** The commit step of [refresh_order_status]: the refreshed order [o2]
    replaces the stored one, and the callback is called when it is
    FILLED with a positive quantity. *)
Lemma live_refresh_commit (m : Live.LiveOrderManager) (oid : string) (o o2 : Order) :
  dict_get oid (Live.orders m) = Some o -> id o2 = oid ->
  let res := (let m1 := Live.set_orders m (dict_update oid (fun _ => o2) (Live.orders m)) in
              if status_eqb (status o2) FILLED && Qltb 0 (filled_qty o2)
              then (Some o2, Live._notify_fill m1 (side_value (side o2))
                               (filled_avg_price o2) (filled_qty o2))
              else (Some o2, m1)) in
  fst res = Some o2 /\
  dict_get oid (Live.orders (snd res)) = Some o2 /\
  (forall k, k <> oid -> dict_get k (Live.orders (snd res)) = dict_get k (Live.orders m)) /\
  Live.fill_callback_set (snd res) = Live.fill_callback_set m /\
  Live.fill_calls (snd res) = Live.fill_calls m ++
    (if Live.fill_callback_set m && (status_eqb (status o2) FILLED && Qltb 0 (filled_qty o2))
     then [(side_value (side o2), filled_avg_price o2, filled_qty o2)] else []).
Proof.
  intros Ho Hid. cbv zeta.
  assert (Hg : dict_get oid (dict_update oid (fun _ => o2) (Live.orders m)) = Some o2)
    by (rewrite dict_get_update_const_same, Ho by exact Hid; reflexivity).
  destruct (status_eqb (status o2) FILLED && Qltb 0 (filled_qty o2)); simpl.
  - split; [reflexivity|split; [exact Hg|split; [|split; [reflexivity|]]]].
    + intros k Hk. apply dict_get_update_const_other; assumption.
    + destruct (Live.fill_callback_set m); [reflexivity|now rewrite app_nil_r].
  - split; [reflexivity|split; [exact Hg|split; [|split; [reflexivity|]]]].
    + intros k Hk. apply dict_get_update_const_other; assumption.
    + rewrite andb_false_r, app_nil_r. reflexivity.
Qed.

(** The two shapes a call of [refresh_order_status] can take. *)
Lemma live_refresh_cases (py_float_str : string -> option Q) (m : Live.LiveOrderManager)
    (oid : string) (r : Live.GetOrderResult) :
  (Live.refresh_order_status py_float_str m oid r = (dict_get oid (Live.orders m), m) /\
   (r = Live.GetOrder_raise \/ dict_get oid (Live.orders m) = None)) \/
  exists o o2,
    dict_get oid (Live.orders m) = Some o /\ r <> Live.GetOrder_raise /\
    Live.refresh_order_status py_float_str m oid r =
      (let m1 := Live.set_orders m (dict_update oid (fun _ => o2) (Live.orders m)) in
       if status_eqb (status o2) FILLED && Qltb 0 (filled_qty o2)
       then (Some o2, Live._notify_fill m1 (side_value (side o2))
                        (filled_avg_price o2) (filled_qty o2))
       else (Some o2, m1)) /\
    id o2 = id o /\ side o2 = side o /\ price o2 = price o /\ size o2 = size o /\
    token_id o2 = token_id o /\
    (status o2 = OPEN \/ status o2 = FILLED \/ status o2 = CANCELLED \/ status o2 = status o) /\
    (forall d, r = Live.GetOrder_dict d ->
       Live.py_get "filledSize" d = Live.PyNone -> Live.py_get "filled_size" d = Live.PyNone ->
       Live.py_get "matchedSize" d = Live.PyNone -> Live.py_get "matched_size" d = Live.PyNone ->
       filled_qty o2 = 0).
Proof.
  destruct r as [| |d].
  - left. split; [reflexivity|left; reflexivity].
  - destruct (dict_get oid (Live.orders m)) as [o|] eqn:Ho.
    + right. exists o, (with_status (Live.mapped_status (Live.PyStr "") (status o)) o).
      split; [reflexivity|split; [discriminate|split]].
      * unfold Live.refresh_order_status. rewrite Ho. reflexivity.
      * do 5 (split; [reflexivity|]).
        split; [apply mapped_status_cases|discriminate].
    + left. split; [unfold Live.refresh_order_status; rewrite Ho; reflexivity|right; reflexivity].
  - destruct (dict_get oid (Live.orders m)) as [o|] eqn:Ho.
    + right.
      exists o, (Live.with_fill_fields
                   (Live.float_or_zero py_float_str
                      (Live.py_or [Live.py_or [Live.py_get "filledSize" d; Live.py_get "filled_size" d;
                                     Live.py_get "matchedSize" d; Live.py_get "matched_size" d]
                                     (Live.PyNum 0)] (Live.PyNum 0)))
                   (Live.float_or_zero py_float_str
                      (Live.py_or [Live.py_or [Live.py_get "avgFillPrice" d;
                                     Live.py_get "avg_fill_price" d;
                                     Live.py_get "averageFillPrice" d;
                                     Live.py_get "average_fill_price" d]
                                     (Live.PyNum 0)] (Live.PyNum 0)))
                   (with_status (Live.mapped_status (Live.py_get "status" d) (status o)) o)).
      split; [reflexivity|split; [discriminate|split]].
      * unfold Live.refresh_order_status. rewrite Ho. reflexivity.
      * do 5 (split; [reflexivity|]).
        split; [apply mapped_status_cases|].
        intros d' Hd H1 H2 H3 H4. injection Hd as <-. simpl.
        rewrite H1, H2, H3, H4. reflexivity.
    + left. split; [unfold Live.refresh_order_status; rewrite Ho; reflexivity|right; reflexivity].
Qed.

(** [refresh_order_status] on the live engine. When the venue call
    raises it returns the stored order (or [None]) and changes nothing;
    for an id the table does not hold it returns [None] and changes
    nothing. Otherwise it rewrites that one entry in place, keeping its
    id, side, price, size and token: the new status is OPEN, FILLED or
    CANCELLED as the venue reports, or the old status for any other
    answer; the callback is called once when the refreshed order is
    FILLED with a positive filled quantity, and not otherwise; every
    other entry is unchanged. A dict answer that carries none of the
    four filled-size keys resets the filled quantity to 0. *)
Theorem live_refresh_order_status_spec (py_float_str : string -> option Q)
    (m : Live.LiveOrderManager) (oid : string) (r : Live.GetOrderResult) :
  Live.refresh_order_status py_float_str m oid Live.GetOrder_raise =
    (dict_get oid (Live.orders m), m) /\
  (dict_get oid (Live.orders m) = None ->
     Live.refresh_order_status py_float_str m oid r = (None, m)) /\
  (forall o, dict_get oid (Live.orders m) = Some o -> r <> Live.GetOrder_raise ->
     exists o2,
       let res := Live.refresh_order_status py_float_str m oid r in
       fst res = Some o2 /\
       dict_get oid (Live.orders (snd res)) = Some o2 /\
       (forall k, k <> oid -> dict_get k (Live.orders (snd res)) = dict_get k (Live.orders m)) /\
       id o2 = id o /\ side o2 = side o /\ price o2 = price o /\ size o2 = size o /\
       token_id o2 = token_id o /\
       (status o2 = OPEN \/ status o2 = FILLED \/ status o2 = CANCELLED \/
        status o2 = status o) /\
       Live.fill_calls (snd res) = Live.fill_calls m ++
         (if Live.fill_callback_set m && (status_eqb (status o2) FILLED && Qltb 0 (filled_qty o2))
          then [(side_value (side o2), filled_avg_price o2, filled_qty o2)] else []) /\
       (forall d, r = Live.GetOrder_dict d ->
          Live.py_get "filledSize" d = Live.PyNone -> Live.py_get "filled_size" d = Live.PyNone ->
          Live.py_get "matchedSize" d = Live.PyNone -> Live.py_get "matched_size" d = Live.PyNone ->
          filled_qty o2 = 0)).
Proof.
  split; [reflexivity|split].
  - intros Hn. destruct (live_refresh_cases py_float_str m oid r)
      as [[R _]|(o & o2 & Ho & _)]; [rewrite R, Hn; reflexivity|congruence].
  - intros o Ho Hr. destruct (live_refresh_cases py_float_str m oid r)
      as [[_ [Hr'|Hn]]|(o' & o2 & Ho' & _ & R & Hid & Hs & Hp & Hz & Ht & Hst & Hf)];
      [congruence|congruence|].
    rewrite Ho in Ho'. injection Ho' as <-.
    exists o2. cbv zeta. rewrite R.
    assert (Hid' : id o2 = oid) by (rewrite Hid; exact (dict_get_id _ _ _ Ho)).
    destruct (live_refresh_commit m oid o o2 Ho Hid') as (C1 & C2 & C3 & _ & C5).
    split; [exact C1|split; [exact C2|split; [exact C3|]]].
    do 6 (split; [assumption|]). split; [exact C5|exact Hf].
Qed.




(** ** Box scanner: what a submission guarantees *)



(** ** The ledger: recording, cycles, statistics and recent entries *)

Lemma stats_step_bounds (s : Ledger.Stats.PerformanceStats) (c : Ledger.Cycle.CycleRecord) :
  let s' := Ledger.stats_step s c in
  Ledger.Stats.total_trades s' = Ledger.Stats.total_trades s /\
  Ledger.Stats.total_cycles s' = Ledger.Stats.total_cycles s /\
  (0 <= Ledger.Stats.gross_profit s -> 0 <= Ledger.Stats.gross_profit s') /\
  (0 <= Ledger.Stats.gross_loss s -> 0 <= Ledger.Stats.gross_loss s') /\
  ((Ledger.Stats.locked_cycles s + Ledger.Stats.stopped_cycles s =
     Ledger.Stats.completed_cycles s)%nat ->
   (Ledger.Stats.locked_cycles s' + Ledger.Stats.stopped_cycles s' =
     Ledger.Stats.completed_cycles s')%nat) /\
  (Ledger.Stats.completed_cycles s' + Ledger.Stats.expired_cycles s' <=
     S (Ledger.Stats.completed_cycles s + Ledger.Stats.expired_cycles s))%nat.
Proof.
  destruct s as [ntr ncy comp lck stp exp gp gl net wr avg st et dh].
  cbv zeta. unfold Ledger.stats_step.
  destruct (String.eqb (Ledger.Cycle.status c) "LOCKED").
  - destruct (Qltb 0 (Ledger.Cycle.locked_profit c)) eqn:Ep; simpl.
    + apply Qltb_true in Ep. repeat split; try lia; intros H; lra.
    + repeat split; try lia; intros H; [exact H|].
      pose proof (Qabs_nonneg (Ledger.Cycle.locked_profit c)). lra.
  - destruct (String.eqb (Ledger.Cycle.status c) "STOPPED").
    + destruct (Qltb 0 (Ledger.Cycle.total_cost c)) eqn:Ep; simpl.
      * apply Qltb_true in Ep. repeat split; try lia; intros H; lra.
      * repeat split; try lia; intros H; exact H.
    + destruct (String.eqb (Ledger.Cycle.status c) "EXPIRED"); simpl;
        repeat split; try lia; intros H; exact H.
Qed.

Lemma fold_stats_bounds (l : list Ledger.Cycle.CycleRecord) :
  forall s : Ledger.Stats.PerformanceStats,
  0 <= Ledger.Stats.gross_profit s -> 0 <= Ledger.Stats.gross_loss s ->
  (Ledger.Stats.locked_cycles s + Ledger.Stats.stopped_cycles s =
    Ledger.Stats.completed_cycles s)%nat ->
  let s' := fold_left Ledger.stats_step l s in
  Ledger.Stats.total_trades s' = Ledger.Stats.total_trades s /\
  Ledger.Stats.total_cycles s' = Ledger.Stats.total_cycles s /\
  0 <= Ledger.Stats.gross_profit s' /\ 0 <= Ledger.Stats.gross_loss s' /\
  (Ledger.Stats.locked_cycles s' + Ledger.Stats.stopped_cycles s' =
    Ledger.Stats.completed_cycles s')%nat /\
  (Ledger.Stats.completed_cycles s' + Ledger.Stats.expired_cycles s' <=
     Ledger.Stats.completed_cycles s + Ledger.Stats.expired_cycles s + length l)%nat.
Proof.
  induction l as [|c l IH]; intros s Hp Hl Hc; simpl.
  - repeat split; try assumption; lia.
  - destruct (stats_step_bounds s c) as (B1 & B2 & B3 & B4 & B5 & B6).
    destruct (IH (Ledger.stats_step s c) (B3 Hp) (B4 Hl) (B5 Hc))
      as (H1 & H2 & H3 & H4 & H5 & H6).
    repeat split; try assumption; try congruence. lia.
Qed.

Lemma nat_q_le (a b : nat) : (a <= b)%nat -> Ledger.nat_q a <= Ledger.nat_q b.
Proof. intros H. unfold Ledger.nat_q. rewrite <- Zle_Qle. lia. Qed.

Lemma nat_q_pos (a : nat) : (0 < a)%nat -> 0 < Ledger.nat_q a.
Proof. intros H. unfold Ledger.nat_q. change 0 with (inject_Z 0). rewrite <- Zlt_Qlt. lia. Qed.

Section LedgerMore.
Context {datetime : Type}.
Variable isoformat : datetime -> string.
Variable fromisoformat : string -> option datetime.
Variable total_seconds : datetime -> datetime -> Q.
Variable strftime_session : datetime -> string.
Variable strftime_hms : datetime -> string.

(** What [get_stats] always reports: gross profit and gross loss are
    never negative, every completed cycle is either LOCKED or STOPPED,
    completed and expired cycles together never outnumber the closed
    cycles, the win rate lies between 0 and 1, and with no completed
    cycle the win rate and the average profit per cycle are both 0. *)
Theorem ledger_get_stats_bounds (lg : @Ledger.TradeLogger datetime) (now : datetime) :
  let s := Ledger.get_stats isoformat total_seconds lg now in
  Ledger.Stats.total_trades s = length (Ledger.trades lg) /\
  Ledger.Stats.total_cycles s = length (Ledger.cycles lg) /\
  0 <= Ledger.Stats.gross_profit s /\ 0 <= Ledger.Stats.gross_loss s /\
  (Ledger.Stats.locked_cycles s + Ledger.Stats.stopped_cycles s =
     Ledger.Stats.completed_cycles s)%nat /\
  (Ledger.Stats.completed_cycles s + Ledger.Stats.expired_cycles s <=
     Ledger.Stats.total_cycles s)%nat /\
  0 <= Ledger.Stats.win_rate s <= 1 /\
  (Ledger.Stats.completed_cycles s = 0%nat ->
     Ledger.Stats.win_rate s = 0 /\ Ledger.Stats.avg_profit_per_cycle s = 0).
Proof.
  cbv zeta. unfold Ledger.get_stats.
  destruct (fold_stats_bounds (Ledger.cycles lg)
              (Ledger.Stats.mkStats (length (Ledger.trades lg)) (length (Ledger.cycles lg))
                 0 0 0 0 0 0 0 0 0 "" "" 0)
              (Qle_refl 0) (Qle_refl 0) eq_refl)
    as (H1 & H2 & H3 & H4 & H5 & H6).
  cbv zeta in H1, H2, H3, H4, H5, H6.
  set (s1 := fold_left Ledger.stats_step (Ledger.cycles lg)
               (Ledger.Stats.mkStats (length (Ledger.trades lg)) (length (Ledger.cycles lg))
                  0 0 0 0 0 0 0 0 0 "" "" 0)) in *.
  simpl in H1, H2, H6.
  destruct (Nat.ltb 0 (Ledger.Stats.completed_cycles s1)) eqn:Ec; simpl.
  - apply Nat.ltb_lt in Ec.
    split; [exact H1|split; [exact H2|split; [exact H3|split; [exact H4|split; [exact H5|]]]]].
    split; [rewrite H2; lia|].
    pose proof (nat_q_pos _ Ec) as Hpos.
    split; [split|intros E; lia].
    + apply Qle_shift_div_l; [exact Hpos|]. rewrite Qmult_0_l.
      unfold Ledger.nat_q. change 0 with (inject_Z 0). rewrite <- Zle_Qle. lia.
    + apply Qle_shift_div_r; [exact Hpos|]. rewrite Qmult_1_l. apply nat_q_le. lia.
  - apply Nat.ltb_ge in Ec.
    split; [exact H1|split; [exact H2|split; [exact H3|split; [exact H4|split; [exact H5|]]]]].
    split; [rewrite H2; lia|].
    split; [split; [apply Qle_refl|discriminate]|].
    intros _. split; reflexivity.
Qed.



(** [complete_cycle] without an open cycle does nothing. With one, it
    appends that cycle, closed with the given status, profit and the
    current time, keeps the trades, and leaves no open cycle, so a
    second [complete_cycle] right after it changes nothing. *)
Theorem ledger_complete_cycle_once (lg : @Ledger.TradeLogger datetime) (st : string)
    (profit : Q) (now : datetime) :
  (Ledger.current_cycle lg = None ->
     Ledger.complete_cycle isoformat total_seconds lg st profit now = lg) /\
  (forall c, Ledger.current_cycle lg = Some c ->
     let lg' := Ledger.complete_cycle isoformat total_seconds lg st profit now in
     Ledger.cycles lg' = Ledger.cycles lg ++ [Ledger.Cycle.close (isoformat now) st profit c] /\
     Ledger.trades lg' = Ledger.trades lg /\ Ledger.current_cycle lg' = None /\
     forall st' profit' now',
       Ledger.complete_cycle isoformat total_seconds lg' st' profit' now' = lg').
Proof.
  split.
  - intros H. unfold Ledger.complete_cycle. rewrite H. reflexivity.
  - intros c H. cbv zeta.
    assert (R : Ledger.complete_cycle isoformat total_seconds lg st profit now =
                Ledger._save isoformat total_seconds
                  (Ledger.set_current
                     (Ledger.set_cycles lg
                        (Ledger.cycles lg ++ [Ledger.Cycle.close (isoformat now) st profit c]))
                     None) now).
    { unfold Ledger.complete_cycle. rewrite H. reflexivity. }
    rewrite R.
    split; [reflexivity|split; [reflexivity|split; [reflexivity|]]].
    intros st' profit' now'. unfold Ledger.complete_cycle. reflexivity.
Qed.

Lemma py_slice_from_neg {A : Type} (l : list A) (n : Z) :
  (0 < n)%Z ->
  Ledger.py_slice_from l (- n) = skipn (length l - Z.to_nat n) l.
Proof.
  intros Hn. unfold Ledger.py_slice_from.
  replace (Z.ltb (- n) 0) with true by (symmetry; apply Z.ltb_lt; lia).
  f_equal. lia.
Qed.

Lemma py_slice_from_nonneg {A : Type} (l : list A) (n : Z) :
  (0 <= n)%Z -> Ledger.py_slice_from l n = skipn (Z.to_nat n) l.
Proof.
  intros Hn. unfold Ledger.py_slice_from.
  replace (Z.ltb n 0) with false by (symmetry; apply Z.ltb_ge; lia).
  destruct (Z.le_ge_cases n (Z.of_nat (length l))) as [H|H].
  - rewrite Z.min_l by exact H. reflexivity.
  - rewrite Z.min_r by exact H. rewrite Nat2Z.id.
    rewrite (skipn_all2 l (le_n _)), skipn_all2; [reflexivity|lia].
Qed.

Lemma py_slice_last {A : Type} (l : list A) (n : Z) :
  (0 < n)%Z ->
  exists pre, l = pre ++ Ledger.py_slice_from l (- n) /\
    length (Ledger.py_slice_from l (- n)) = Nat.min (Z.to_nat n) (length l).
Proof.
  intros Hn. rewrite (py_slice_from_neg l n Hn).
  exists (firstn (length l - Z.to_nat n) l). split.
  - symmetry. apply firstn_skipn.
  - rewrite length_skipn. lia.
Qed.

(** [get_recent_trades n] and [get_recent_cycles n] ([l[-n:]]): for a
    positive [n] they return the last [min(n, len)] entries, a suffix of
    the list in order; [n = 0] returns the whole list, not an empty one;
    a negative [n] drops the first [-n] entries instead. *)
Theorem ledger_recent_entries (lg : @Ledger.TradeLogger datetime) (n : Z) :
  ((0 < n)%Z ->
     (exists pre, Ledger.trades lg = pre ++ Ledger.get_recent_trades lg n /\
        length (Ledger.get_recent_trades lg n) = Nat.min (Z.to_nat n) (length (Ledger.trades lg))) /\
     (exists pre, Ledger.cycles lg = pre ++ Ledger.get_recent_cycles lg n /\
        length (Ledger.get_recent_cycles lg n) = Nat.min (Z.to_nat n) (length (Ledger.cycles lg)))) /\
  Ledger.get_recent_trades lg 0 = Ledger.trades lg /\
  Ledger.get_recent_cycles lg 0 = Ledger.cycles lg /\
  ((n < 0)%Z ->
     Ledger.get_recent_trades lg n = skipn (Z.to_nat (- n)) (Ledger.trades lg) /\
     Ledger.get_recent_cycles lg n = skipn (Z.to_nat (- n)) (Ledger.cycles lg)).
Proof.
  unfold Ledger.get_recent_trades, Ledger.get_recent_cycles.
  split; [intros Hn; split; apply py_slice_last, Hn|].
  split; [apply (py_slice_from_nonneg _ 0); lia|].
  split; [apply (py_slice_from_nonneg _ 0); lia|].
  intros Hn. split; apply py_slice_from_nonneg; lia.
Qed.

End LedgerMore.

(** ** Configuration *)

(** [load_config] raises exactly when the private key is empty while
    [TRADING_MODE] is the exact string "live", or when one of the numeric
    settings does not parse. On success, the private key is the
    environment's, and [paper_mode] holds exactly when [TRADING_MODE],
    lower-cased, is "paper". The key check is case-sensitive and the mode
    test is not: with an empty key, a mode of "LIVE" is accepted and
    gives [paper_mode = false]. *)
Theorem config_load_mode (getenv : string -> option string) (py_strip : string -> string)
    (py_int : string -> option Z) (py_float : string -> option Q) :
  let env := Config.env getenv in
  let mode := env "TRADING_MODE" "paper" in
  (Config.load_config getenv py_strip py_int py_float = Live.Raises "ValueError" <->
     (env "POLYMARKET_PRIVATE_KEY" "" = "" /\ mode = "live") \/
     py_float (env "STRIKE_PRICE" "100000") = None \/
     py_float (env "TARGET_MARGIN" "0.03") = None \/
     py_float (env "MIN_PROFIT" "0.02") = None \/
     py_float (env "STOP_LOSS_THRESHOLD" "0.15") = None \/
     py_float (env "GAMMA_STOP_MINUTES" "2") = None \/
     py_float (env "POSITION_SIZE" "50.0") = None \/
     py_float (env "VOLATILITY" "0.60") = None \/
     py_int (env "CHAIN_ID" "137") = None) /\
  (forall cfg, Config.load_config getenv py_strip py_int py_float = Live.Returns cfg ->
     Config.private_key cfg = env "POLYMARKET_PRIVATE_KEY" "" /\
     Config.paper_mode cfg = String.eqb (Config.py_lower mode) "paper").
Proof.
  cbv zeta. unfold Config.load_config. cbv zeta.
  destruct (String.eqb (Config.env getenv "POLYMARKET_PRIVATE_KEY" "") "" &&
            String.eqb (Config.env getenv "TRADING_MODE" "paper") "live") eqn:E.
  - apply andb_true_iff in E as [E1 E2]. apply String.eqb_eq in E1, E2.
    split; [split; [intros _; left; split; assumption|reflexivity]|].
    intros cfg H. discriminate.
  - assert (HE : ~ (Config.env getenv "POLYMARKET_PRIVATE_KEY" "" = "" /\
                    Config.env getenv "TRADING_MODE" "paper" = "live")).
    { intros [E1 E2]. rewrite E1, E2 in E. discriminate. }
    destruct (py_float (Config.env getenv "STRIKE_PRICE" "100000"));
      [|split; [split; [intros _; tauto|reflexivity]|discriminate]].
    destruct (py_float (Config.env getenv "TARGET_MARGIN" "0.03"));
      [|split; [split; [intros _; tauto|reflexivity]|discriminate]].
    destruct (py_float (Config.env getenv "MIN_PROFIT" "0.02"));
      [|split; [split; [intros _; tauto|reflexivity]|discriminate]].
    destruct (py_float (Config.env getenv "STOP_LOSS_THRESHOLD" "0.15"));
      [|split; [split; [intros _; tauto|reflexivity]|discriminate]].
    destruct (py_float (Config.env getenv "GAMMA_STOP_MINUTES" "2"));
      [|split; [split; [intros _; tauto|reflexivity]|discriminate]].
    destruct (py_float (Config.env getenv "POSITION_SIZE" "50.0"));
      [|split; [split; [intros _; tauto|reflexivity]|discriminate]].
    destruct (py_float (Config.env getenv "VOLATILITY" "0.60"));
      [|split; [split; [intros _; tauto|reflexivity]|discriminate]].
    destruct (py_int (Config.env getenv "CHAIN_ID" "137"));
      [|split; [split; [intros _; tauto|reflexivity]|discriminate]].
    split.
    + split; [discriminate|].
      intros [H|[H|[H|[H|[H|[H|[H|[H|H]]]]]]]]; [contradiction|discriminate..].
    + intros cfg H. injection H as <-. split; reflexivity.
Qed.
